(** * LoanPulse data platform: watermark-driven ingestion and its mock source

    A shallow embedding of
      - [services/api/app/main.py]  (the mock source API),
      - [src/etl/quality.py]        (the staging quality gate),
      - [src/etl/ingest_api.py]     (watermark store, bronze archive, staging
                                     merge, run recorder and the orchestrator),
    followed by the properties of the design document that the code is
    checked against.

    Modelling conventions.
      - Python [int] is [Z]; a monetary amount is the integer the store
        holds, what [float] makes of the value fetched (an amount with a
        fraction is outside the model).
      - A [datetime] is the record of its civil fields; every timestamp is
        timezone-aware and carried in UTC, as the mock source emits them.
        Aware datetimes compare by instant ([to_micros]).
      - Library calls that are not part of the repository
        ([datetime.fromisoformat], [float], [uuid4]) are parameters of the
        definitions that use them.
      - A Python call either returns or raises: [result].  Only exceptions
        below [Exception] are modelled, those [except Exception] catches.
      - A run of the orchestrator is a function of the world it finds (the
        relations of the store and the archive files) and of what the
        outside does during the run ([Env]: the run identifier drawn, the
        answer of the source, which calls fail and with which exception,
        the time each call reads).  Its outcome is the result, the world it
        leaves and the trace of the effects it performed, in order.
      - A call to the store is one transaction: it is committed whole or,
        when it raises, leaves the store as it was (the connection is
        closed without commit). *)

From Stdlib Require Import ZArith List String Ascii Lia Bool Sorted.
From stdpp Require Import base tactics option list strings pretty.

Local Open Scope string_scope.
Local Open Scope list_scope.
Local Open Scope Z_scope.

(** ** Python results and exceptions *)

Module Py.

(** An instance of a subclass of [Exception]: its class name and [str(e)]. *)
Inductive exn : Type := Exn (cls : string) (msg : string).

Definition str (e : exn) : string := let 'Exn _ m := e in m.

Definition ValueError : string -> exn := Exn "ValueError".
Definition RuntimeError : string -> exn := Exn "RuntimeError".
Definition KeyError : string -> exn := Exn "KeyError".
Definition AttributeError : string -> exn := Exn "AttributeError".
Definition TypeError : string -> exn := Exn "TypeError".
Definition OverflowError : string -> exn := Exn "OverflowError".

Inductive result (A : Type) : Type :=
| Ok (a : A)
| Raise (e : exn).
Arguments Ok {A} a.
Arguments Raise {A} e.

#[global] Instance result_ret : MRet result := fun _ a => Ok a.
#[global] Instance result_bind : MBind result := fun _ _ k r =>
  match r with
  | Ok a => k a
  | Raise e => Raise e
  end.

(** [s.replace("Z", "+00:00")] *)
Fixpoint replace_Z (s : string) : string :=
  match s with
  | EmptyString => EmptyString
  | String c rest =>
      if Ascii.eqb c "Z"%char then "+00:00" +:+ replace_Z rest
      else String c (replace_Z rest)
  end.

(** [sep.join(parts)] *)
Fixpoint join (sep : string) (parts : list string) : string :=
  match parts with
  | [] => ""
  | [p] => p
  | p :: rest => p +:+ sep +:+ join sep rest
  end.

End Py.
Export Py.

(** ** datetime *)

Module Datetime.

Record datetime : Type := mk_datetime {
  year : Z; month : Z; day : Z;
  hour : Z; minute : Z; second : Z; microsecond : Z
}.

(** CPython's [_is_leap], [_days_before_year], [_days_before_month],
    [_ymd2ord]. *)
Definition is_leap (y : Z) : bool :=
  (y mod 4 =? 0) && (negb (y mod 100 =? 0) || (y mod 400 =? 0)).

Definition days_before_year (year : Z) : Z :=
  let y := year - 1 in y * 365 + y / 4 - y / 100 + y / 400.

Definition DAYS_IN_MONTH : list Z :=
  [31; 28; 31; 30; 31; 30; 31; 31; 30; 31; 30; 31].

Definition days_before_month (year month : Z) : Z :=
  fold_right Z.add 0 (firstn (Z.to_nat (month - 1)) DAYS_IN_MONTH)
  + (if (2 <? month) && is_leap year then 1 else 0).

Definition days_in_month (year month : Z) : Z :=
  if (month =? 2) && is_leap year then 29
  else nth (Z.to_nat (month - 1)) DAYS_IN_MONTH 0.

Definition ymd2ord (year month day : Z) : Z :=
  days_before_year year + days_before_month year month + day.

(** Microseconds since 1970-01-01T00:00:00Z ([ymd2ord 1970 1 1 = 719163]). *)
Definition to_micros (d : datetime) : Z :=
  (((ymd2ord (year d) (month d) (day d) - 719163) * 86400
    + hour d * 3600 + minute d * 60 + second d) * 1000000)
  + microsecond d.

(** [int(d.timestamp())] *)
Definition timestamp_int (d : datetime) : Z := Z.quot (to_micros d) 1000000.

(** Comparison of aware datetimes. *)
Definition dt_ltb (a b : datetime) : bool := to_micros a <? to_micros b.
Definition dt_leb (a b : datetime) : bool := to_micros a <=? to_micros b.
Definition dt_lt (a b : datetime) : Prop := to_micros a < to_micros b.
Definition dt_le (a b : datetime) : Prop := to_micros a <= to_micros b.

Definition valid_time (h m s us : Z) : bool :=
  (0 <=? h) && (h <=? 23) && (0 <=? m) && (m <=? 59)
  && (0 <=? s) && (s <=? 59) && (0 <=? us) && (us <=? 999999).

Definition valid (d : datetime) : bool :=
  (1 <=? year d) && (year d <=? 9999)
  && (1 <=? month d) && (month d <=? 12)
  && (1 <=? day d) && (day d <=? days_in_month (year d) (month d))
  && valid_time (hour d) (minute d) (second d) (microsecond d).

(** CPython's [_check_time_fields]. *)
Definition check_time_fields (h m s us : Z) : result unit :=
  if negb ((0 <=? h) && (h <=? 23)) then
    Raise (ValueError "hour must be in 0..23")
  else if negb ((0 <=? m) && (m <=? 59)) then
    Raise (ValueError "minute must be in 0..59")
  else if negb ((0 <=? s) && (s <=? 59)) then
    Raise (ValueError "second must be in 0..59")
  else if negb ((0 <=? us) && (us <=? 999999)) then
    Raise (ValueError "microsecond must be in 0..999999")
  else Ok tt.

(** [d.replace(hour=.., minute=.., second=.., microsecond=..)]: an absent
    keyword keeps the field; the new datetime is built by the constructor,
    which checks the time fields. *)
Definition replace (d : datetime) (h m s us : option Z) : result datetime :=
  let h' := default (hour d) h in
  let m' := default (minute d) m in
  let s' := default (second d) s in
  let us' := default (microsecond d) us in
  _ ← check_time_fields h' m' s' us';
  Ok (mk_datetime (year d) (month d) (day d) h' m' s' us').

(** An instance of [fromisoformat] for the closed examples: it reads the
    canonical text [YYYY-MM-DDTHH:MM:SS[.ffffff][+00:00]], on which it
    agrees with Python, and rejects everything else. *)
Definition digit (c : ascii) : option Z :=
  let n := nat_of_ascii c in
  if ((48 <=? n) && (n <=? 57))%nat then Some (Z.of_nat (n - 48)) else None.

Fixpoint digits (k : nat) (acc : Z) (s : string) : option (Z * string) :=
  match k with
  | O => Some (acc, s)
  | S k' =>
      match s with
      | String c rest => v ← digit c; digits k' (10 * acc + v) rest
      | EmptyString => None
      end
  end.

Definition expect (c : ascii) (s : string) : option string :=
  match s with
  | String c' rest => if Ascii.eqb c c' then Some rest else None
  | EmptyString => None
  end.

Definition fraction (s : string) : option (Z * string) :=
  match s with
  | String "."%char rest => digits 6 0 rest
  | _ => Some (0, s)
  end.

Definition fromisoformat_utc (s : string) : option datetime :=
  '(y, s) ← digits 4 0 s; s ← expect "-" s;
  '(mo, s) ← digits 2 0 s; s ← expect "-" s;
  '(d, s) ← digits 2 0 s; s ← expect "T" s;
  '(h, s) ← digits 2 0 s; s ← expect ":" s;
  '(mi, s) ← digits 2 0 s; s ← expect ":" s;
  '(se, s) ← digits 2 0 s;
  '(us, s) ← fraction s;
  let dt := mk_datetime y mo d h mi se us in
  if (String.eqb s "" || String.eqb s "+00:00") && valid dt
  then Some dt else None.

End Datetime.
Export Datetime.

(** ** The mock source API: [services/api/app/main.py] *)

Module MockApi.

Record LoanApplication : Type := {
  application_id : string;
  applicant_id : string;
  submitted_at : datetime;
  loan_amount : Z;
  purpose : string;
  state : string;
  annual_income : Z
}.

Definition STATES : list string :=
  ["NY"; "NJ"; "PA"; "CT"; "MA"; "FL"; "GA"; "TX"; "CA"; "IL"].
Definition PURPOSES : list string :=
  ["debt_consolidation"; "home_improvement"; "auto"; "medical";
   "small_business"].

Section Handler.
(** [datetime.fromisoformat]; [None] is [ValueError]. *)
Variable fromisoformat : string -> option datetime.
(** The successive values of [str(uuid4())] during one request. *)
Variable uuid4 : nat -> string.

(** [_fake_record]; [n] counts the identifiers drawn so far. *)
Definition _fake_record (n : nat) (submitted_at : datetime)
  : LoanApplication :=
  let idx := timestamp_int submitted_at mod Z.of_nat (length STATES) in
  let purpose_idx :=
    timestamp_int submitted_at mod Z.of_nat (length PURPOSES) in
  {| application_id := uuid4 n;
     applicant_id := uuid4 (S n);
     submitted_at := submitted_at;
     loan_amount := 5000 + (timestamp_int submitted_at mod 20000);
     purpose := nth (Z.to_nat purpose_idx) PURPOSES "";
     state := nth (Z.to_nat idx) STATES "";
     annual_income := 40000 + (timestamp_int submitted_at mod 90000) |}.

(** One step of the cursor: lines 82-83. *)
Definition advance (cursor : datetime) : result datetime :=
  cursor ← replace cursor None None (Some 0) (Some 0);
  if minute cursor <? 59
  then replace cursor None (Some (minute cursor + 1)) None None
  else replace cursor (Some (hour cursor + 1)) (Some 0) None None.

(** The [while len(records) < limit] loop; [remaining] is
    [limit - len(records)], so the loop condition is [remaining > 0]
    and every iteration that appends decreases it by one. *)
Fixpoint generate (remaining : nat) (now cursor : datetime)
    (records : list LoanApplication) : result (list LoanApplication) :=
  match remaining with
  | O => Ok records
  | S remaining' =>
      cursor ← advance cursor;
      if negb (dt_ltb cursor now) then Ok records
      else generate remaining' now cursor
             (records ++ [_fake_record (2 * length records) cursor])
  end.

(** Lines 66-75: where the cursor starts. *)
Definition window_start (since : option string) (now : datetime)
  : result datetime :=
  match since with
  | None =>
      start ← replace now None None (Some 0) (Some 0);
      replace start None (Some (Z.max 0 (minute start - 60))) None None
  | Some since =>
      match fromisoformat (replace_Z since) with
      | Some start => Ok start
      | None => Raise (ValueError "Invalid isoformat string")
      end
  end.

(** [GET /loan_applications]; [limit] is declared
    [Query(default=50, ge=1, le=500)], [now] is what [_now_utc()]
    returns. *)
Definition loan_applications (since : option string) (limit : option Z)
    (now : datetime) : result (list LoanApplication) :=
  let limit := default 50 limit in
  if negb ((1 <=? limit) && (limit <=? 500)) then
    Raise (Exn "RequestValidationError" "limit")
  else
    start ← window_start since now;
    generate (Z.to_nat limit) now start [].

End Handler.

End MockApi.

(** ** The relations of the store *)

Module Raw.

(** A JSON value as [resp.json()] decodes it.  A number is an integer;
    arrays and objects are not looked into. *)
Inductive json : Type :=
| JNull
| JBool (b : bool)
| JNumber (n : Z)
| JString (s : string)
| JArray
| JObject.

(** One element of the JSON array returned by [GET /loan_applications],
    a [dict]: each field is the value under that key, [None] when the
    object has no such key ([r[key]] is then a [KeyError]).  The values of
    the four keys that go to the store as they are, are a string or [null]
    (the inner [None]); what the store makes of another JSON type depends
    on the column types, which the sources do not give. *)
Record RawRecord : Type := {
  application_id : option (option string);
  applicant_id : option (option string);
  submitted_at : option json;
  loan_amount : option json;
  purpose : option (option string);
  state : option (option string);
  annual_income : option json
}.

(** [float(n)] for an [int]: the nearest double, ties to even, or
    [OverflowError]. *)
Definition float_of_int (n : Z) : result Z :=
  let a := Z.abs n in
  if a <? 2 ^ 53 then Ok n
  else
    let e := Z.log2 a - 52 in
    let q := a / 2 ^ e in
    let r := a mod 2 ^ e in
    let half := 2 ^ (e - 1) in
    let q' := if (half <? r) || ((r =? half) && Z.odd q) then q + 1 else q in
    let v := q' * 2 ^ e in
    if 2 ^ 1024 <=? v
    then Raise (OverflowError "int too large to convert to float")
    else Ok (Z.sgn n * v).

(** The [float] of the closed examples.  It is Python's on a JSON integer,
    a boolean, [null], an array and an object; on a string, which Python
    reads as a number when it spells one, it raises: no example carries
    an amount as a string. *)
Definition float_exact (v : json) : result Z :=
  match v with
  | JNumber n => float_of_int n
  | JBool b => Ok (if b then 1 else 0)
  | JString _ => Raise (ValueError "could not convert string to float")
  | _ => Raise (TypeError "float() argument must be a string or a real number")
  end.

End Raw.
Abbreviation RawRecord := Raw.RawRecord.
Abbreviation json := Raw.json.
Abbreviation float_exact := Raw.float_exact.

Module Db.

(** Modelled from the spec: the table declarations are not part of the
    sources; the columns are those of section 6 of the design document,
    [ingestion_state(source_name unique, last_ingested_at, updated_at)],
    [pipeline_runs(run_id unique, pipeline_name, status, started_at,
    finished_at, row_count, error_message)] and
    [staging_records(application_id unique, applicant_id, submitted_at,
    loan_amount, purpose, state, annual_income)].  A column holds a value
    or NULL; [started_at] and [updated_at] are filled by the store. *)
Record IngestionState : Type := {
  source_name : string;
  last_ingested_at : option datetime;
  updated_at : option datetime
}.

Record PipelineRun : Type := {
  run_id : string;
  pipeline_name : string;
  status : string;
  started_at : option datetime;
  finished_at : option datetime;
  row_count : option Z;
  error_message : option string
}.

Record StagingRow : Type := {
  application_id : option string;
  applicant_id : option string;
  submitted_at : option datetime;
  loan_amount : option Z;
  purpose : option string;
  state : option string;
  annual_income : option Z
}.

Record Database : Type := {
  ingestion_state : list IngestionState;
  pipeline_runs : list PipelineRun;
  loan_applications : list StagingRow
}.

(** [a = b] in SQL on nullable text: NULL is equal to nothing. *)
Definition sql_eqb (a b : option string) : bool :=
  match a, b with
  | Some x, Some y => String.eqb x y
  | _, _ => false
  end.

Definition is_null {A} (v : option A) : bool :=
  match v with None => true | Some _ => false end.

End Db.
Abbreviation StagingRow := Db.StagingRow.

(** ** The quality gate: [src/etl/quality.py] *)

Module Quality.

Record QualityResult : Type := {
  passed : bool;
  failures : list string
}.

(** The [WHERE] clauses of the four queries; a comparison with NULL does
    not select the row. *)
Definition null_required_fields (x : StagingRow) : bool :=
  Db.is_null (Db.application_id x)
  || Db.is_null (Db.applicant_id x)
  || Db.is_null (Db.submitted_at x)
  || Db.is_null (Db.loan_amount x)
  || Db.is_null (Db.purpose x)
  || Db.is_null (Db.state x)
  || Db.is_null (Db.annual_income x).

Definition loan_amount_positive (x : StagingRow) : bool :=
  match Db.loan_amount x with Some v => v <=? 0 | None => false end.

Definition annual_income_positive (x : StagingRow) : bool :=
  match Db.annual_income x with Some v => v <=? 0 | None => false end.

(** [submitted_at > NOW() + INTERVAL '5 minutes'] *)
Definition submitted_at_future_guard (now : datetime) (x : StagingRow)
  : bool :=
  match Db.submitted_at x with
  | Some t => to_micros now + 5 * 60 * 1000000 <? to_micros t
  | None => false
  end.

Definition checks (now : datetime) : list (string * (StagingRow -> bool)) :=
  [ ("null_required_fields", null_required_fields);
    ("loan_amount_positive", loan_amount_positive);
    ("annual_income_positive", annual_income_positive);
    ("submitted_at_future_guard", submitted_at_future_guard now) ].

(** [SELECT COUNT( * ) FROM staging.loan_applications WHERE ...] *)
Definition count_rows (where_ : StagingRow -> bool) (t : list StagingRow)
  : nat := length (List.filter where_ t).

(** [f"{name}: {count} failing rows"] *)
Definition failure_line (name : string) (count : nat) : string :=
  name +:+ ": " +:+ pretty count +:+ " failing rows".

(** The body of the [for name, sql in checks] loop. *)
Definition check_step (t : list StagingRow) (failures : list string)
    (check : string * (StagingRow -> bool)) : list string :=
  let '(name, where_) := check in
  let count := count_rows where_ t in
  if (0 <? count)%nat then failures ++ [failure_line name count]
  else failures.

(** [run_staging_checks] on the staging relation [t], with [now] the
    store's [NOW()]. *)
Definition run_staging_checks (t : list StagingRow) (now : datetime)
  : QualityResult :=
  let failures := fold_left (check_step t) (checks now) [] in
  {| passed := (length failures =? 0)%nat; failures := failures |}.

End Quality.
Export Quality.

(** ** The ingestion run: [src/etl/ingest_api.py] *)

Module Ingest.

(** [data/bronze/api/loan_applications/dt=<dt>/run_id=<run_id>.jsonl] *)
Record BronzePath : Type := {
  dt : Z * Z * Z;
  file_run_id : string
}.

#[global] Instance BronzePath_eq_dec : EqDecision BronzePath.
Proof. solve_decision. Defined.

(** The calls of a run that leave the process. *)
Inductive Op : Type :=
| OpConnect
| OpCreateRun
| OpEnsureState
| OpGetWatermark
| OpFetch
| OpWriteBronze
| OpUpsert
| OpChecks
| OpSetWatermark
| OpFinishRun (status : string).

(** The lines printed by [log_event] (without their [ts] field). *)
Inductive LogEvent : Type :=
| pipeline_start (pipeline run_id : string)
| watermark_loaded (source : string) (watermark : option datetime)
| api_fetched (count : Z)
| bronze_written (path : BronzePath) (count : Z)
| staging_upserted (row_count : Z)
| quality_failed (failures : list string)
| quality_passed
| watermark_updated (source : string) (new_watermark : datetime)
| pipeline_success (pipeline run_id : string) (row_count : Z)
| pipeline_failed (pipeline run_id : string) (error : string).

(** What a run does to the outside, in the order it does it. *)
Inductive Effect : Type :=
| Printed (ev : LogEvent)
| Connected
| RunCreated (run_id pipeline : string)
| StateEnsured (source : string)
| WatermarkRead (source : string) (watermark : option datetime)
| Fetched (since : option datetime) (limit : Z) (records : list RawRecord)
| Archived (path : BronzePath) (records : list RawRecord)
| Upserted (rows : list StagingRow)
| GateEvaluated (q : QualityResult)
| WatermarkSet (source : string) (new_watermark : datetime)
| RunFinished (run_id status : string) (row_count : option Z)
    (error_message : option string)
| Failed (op : Op) (e : exn)
| Closed.

(** The store and the archive sink.  A file holds one JSON object per
    line; a line is identified with the record it serialises. *)
Record World : Type := {
  db : Db.Database;
  bronze : list (BronzePath * list RawRecord)
}.

(** What the outside does during one run: the identifier drawn by
    [uuid4()], the response of the source, the calls that fail (and with
    which exception) and the time each call observes. *)
Record Env : Type := {
  env_run_id : string;
  env_api : option datetime -> Z -> result (list RawRecord);
  env_fault : Op -> option exn;
  env_now : Op -> datetime
}.

(** A computation returns or raises, leaves a world behind and has
    performed a sequence of effects. *)
Record Outcome (A : Type) : Type := {
  res : result A;
  final : World;
  trace : list Effect
}.
Arguments res {A} _.
Arguments final {A} _.
Arguments trace {A} _.

Definition M (A : Type) : Type := World -> Outcome A.

#[global] Instance M_ret : MRet M := fun _ a w =>
  {| res := Ok a; final := w; trace := [] |}.

#[global] Instance M_bind : MBind M := fun _ _ k m w =>
  let o := m w in
  match res o with
  | Ok a =>
      let o' := k a (final o) in
      {| res := res o'; final := final o'; trace := trace o ++ trace o' |}
  | Raise e => {| res := Raise e; final := final o; trace := trace o |}
  end.

Definition raise {A} (e : exn) : M A := fun w =>
  {| res := Raise e; final := w; trace := [] |}.

Definition lift {A} (r : result A) : M A := fun w =>
  {| res := r; final := w; trace := [] |}.

Definition get_world : M World := fun w =>
  {| res := Ok w; final := w; trace := [] |}.

(** [try: body  except Exception as e: handler(e)] *)
Definition try_except {A} (body : M A) (handler : exn -> M A) : M A :=
  fun w =>
    let o := body w in
    match res o with
    | Ok _ => o
    | Raise e =>
        let o' := handler e (final o) in
        {| res := res o'; final := final o'; trace := trace o ++ trace o' |}
    end.

(** [try: body  finally: cleanup], for a cleanup that does not raise. *)
Definition try_finally {A} (body : M A) (cleanup : M unit) : M A :=
  fun w =>
    let o := body w in
    let c := cleanup (final o) in
    {| res := res o; final := final c; trace := trace o ++ trace c |}.

Definition len {A} (l : list A) : Z := Z.of_nat (length l).

(** File system: [open(path, "w")] creates or truncates. *)
Definition write_file (path : BronzePath) (content : list RawRecord)
    (fs : list (BronzePath * list RawRecord))
  : list (BronzePath * list RawRecord) :=
  (path, content) :: List.filter (fun f => negb (bool_decide (f.1 = path))) fs.

Definition read_file (path : BronzePath)
    (fs : list (BronzePath * list RawRecord)) : option (list RawRecord) :=
  snd <$> List.find (fun f => bool_decide (f.1 = path)) fs.

(** [SELECT last_ingested_at ... WHERE source_name = %s], [fetchone]. *)
Definition lookup_watermark (d : Db.Database) (source : string)
  : option datetime :=
  match List.find (fun r => String.eqb (Db.source_name r) source)
          (Db.ingestion_state d) with
  | Some r => Db.last_ingested_at r
  | None => None
  end.

Definition with_ingestion_state (d : Db.Database)
    (t : list Db.IngestionState) : Db.Database :=
  {| Db.ingestion_state := t;
     Db.pipeline_runs := Db.pipeline_runs d;
     Db.loan_applications := Db.loan_applications d |}.

Definition with_pipeline_runs (d : Db.Database) (t : list Db.PipelineRun)
  : Db.Database :=
  {| Db.ingestion_state := Db.ingestion_state d;
     Db.pipeline_runs := t;
     Db.loan_applications := Db.loan_applications d |}.

Definition with_loan_applications (d : Db.Database) (t : list StagingRow)
  : Db.Database :=
  {| Db.ingestion_state := Db.ingestion_state d;
     Db.pipeline_runs := Db.pipeline_runs d;
     Db.loan_applications := t |}.

(** A committed transaction, and a file written. *)
Definition on_db (f : Db.Database -> Db.Database) (w : World) : World :=
  {| db := f (db w); bronze := bronze w |}.

Definition on_bronze
    (f : list (BronzePath * list RawRecord)
         -> list (BronzePath * list RawRecord)) (w : World) : World :=
  {| db := db w; bronze := f (bronze w) |}.

(** [ON CONFLICT (application_id) DO UPDATE SET ... = EXCLUDED. ...]: the
    stored row keeps its key and takes every other column of the new
    row. *)
Definition do_update (old excluded : StagingRow) : StagingRow :=
  {| Db.application_id := Db.application_id old;
     Db.applicant_id := Db.applicant_id excluded;
     Db.submitted_at := Db.submitted_at excluded;
     Db.loan_amount := Db.loan_amount excluded;
     Db.purpose := Db.purpose excluded;
     Db.state := Db.state excluded;
     Db.annual_income := Db.annual_income excluded |}.

Definition conflicts (row old : StagingRow) : bool :=
  Db.sql_eqb (Db.application_id old) (Db.application_id row).

(** One [INSERT ... ON CONFLICT ... DO UPDATE] statement. *)
Definition upsert_row (t : list StagingRow) (row : StagingRow)
  : list StagingRow :=
  if existsb (conflicts row) t
  then map (fun old => if conflicts row old then do_update old row else old) t
  else t ++ [row].

(** [cur.executemany(sql, rows)] *)
Definition executemany (rows : list StagingRow) (t : list StagingRow)
  : list StagingRow := fold_left upsert_row rows t.

(** [INSERT INTO metadata.ingestion_state (source_name, last_ingested_at)
    VALUES (%s, NULL) ON CONFLICT (source_name) DO NOTHING] *)
Definition sql_ensure_state (source_name : string) (now : datetime)
    (d : Db.Database) : Db.Database :=
  let t := Db.ingestion_state d in
  if existsb (fun r => String.eqb (Db.source_name r) source_name) t
  then d
  else with_ingestion_state d
         (t ++ [ {| Db.source_name := source_name;
                    Db.last_ingested_at := None;
                    Db.updated_at := Some now |} ]).

(** [UPDATE metadata.ingestion_state SET last_ingested_at = %s,
    updated_at = NOW() WHERE source_name = %s] *)
Definition sql_set_watermark (source_name : string)
    (new_watermark now : datetime) (d : Db.Database) : Db.Database :=
  with_ingestion_state d
    (map (fun r =>
            if String.eqb (Db.source_name r) source_name
            then {| Db.source_name := Db.source_name r;
                    Db.last_ingested_at := Some new_watermark;
                    Db.updated_at := Some now |}
            else r)
         (Db.ingestion_state d)).

(** [INSERT INTO metadata.pipeline_runs (run_id, pipeline_name, status)
    VALUES (%s, %s, 'running')] *)
Definition sql_insert_run (run_id pipeline_name : string) (now : datetime)
    (d : Db.Database) : Db.Database :=
  with_pipeline_runs d
    (Db.pipeline_runs d
     ++ [ {| Db.run_id := run_id;
             Db.pipeline_name := pipeline_name;
             Db.status := "running";
             Db.started_at := Some now;
             Db.finished_at := None;
             Db.row_count := None;
             Db.error_message := None |} ]).

(** [UPDATE metadata.pipeline_runs SET finished_at = NOW(), status = %s,
    row_count = %s, error_message = %s WHERE run_id = %s] *)
Definition sql_finish_run (run_id status : string) (row_count : option Z)
    (error_message : option string) (now : datetime) (d : Db.Database)
  : Db.Database :=
  with_pipeline_runs d
    (map (fun r =>
            if String.eqb (Db.run_id r) run_id
            then {| Db.run_id := Db.run_id r;
                    Db.pipeline_name := Db.pipeline_name r;
                    Db.status := status;
                    Db.started_at := Db.started_at r;
                    Db.finished_at := Some now;
                    Db.row_count := row_count;
                    Db.error_message := error_message |}
            else r)
         (Db.pipeline_runs d)).

Definition sql_upsert (rows : list StagingRow) (d : Db.Database)
  : Db.Database :=
  with_loan_applications d (executemany rows (Db.loan_applications d)).

Definition source_name : string := "mock_api.loan_applications".
Definition pipeline_name : string := "ingest_api_loan_applications".

Section Run.
(** [datetime.fromisoformat]; [None] is [ValueError]. *)
Variable fromisoformat : string -> option datetime.
(** [float]: the number stored for a value, or the exception raised
    ([TypeError], [ValueError], [OverflowError]). *)
Variable py_float : json -> result Z.
Variable env : Env.

Definition log_event (ev : LogEvent) : M unit := fun w =>
  {| res := Ok tt; final := w; trace := [Printed ev] |}.

(** A call that leaves the process: it raises what the environment
    makes it raise and then changes nothing, or it performs its write
    (one committed transaction, or one file). *)
Definition call (op : Op) (eff : Effect) (write : World -> World)
  : M unit := fun w =>
  match env_fault env op with
  | Some e => {| res := Raise e; final := w; trace := [Failed op e] |}
  | None => {| res := Ok tt; final := write w; trace := [eff] |}
  end.

(** A call refused by the store itself. *)
Definition refused (op : Op) (e : exn) : M unit := fun w =>
  {| res := Raise e; final := w; trace := [Failed op e] |}.

Definition get_db_conn : M unit := call OpConnect Connected id.

Definition close : M unit := fun w =>
  {| res := Ok tt; final := w; trace := [Closed] |}.

(** [r[key]] *)
Definition getitem {A} (key : string) (v : option A) : result A :=
  match v with
  | Some a => Ok a
  | None => Raise (KeyError key)
  end.

(** [datetime.fromisoformat(r["submitted_at"].replace("Z", "+00:00"))]:
    only a string has [replace]. *)
Definition parse_submitted_at (r : RawRecord) : result datetime :=
  v ← getitem "submitted_at" (Raw.submitted_at r);
  match v with
  | Raw.JString s =>
      match fromisoformat (replace_Z s) with
      | Some t => Ok t
      | None => Raise (ValueError "Invalid isoformat string")
      end
  | _ => Raise (AttributeError "object has no attribute 'replace'")
  end.

Definition ensure_ingestion_state (source_name : string) : M unit :=
  call OpEnsureState (StateEnsured source_name)
    (on_db (sql_ensure_state source_name (env_now env OpEnsureState))).

Definition get_watermark (source_name : string)
  : M (option datetime) :=
  w ← get_world;
  let watermark := lookup_watermark (db w) source_name in
  call OpGetWatermark (WatermarkRead source_name watermark) id;;
  mret watermark.

Definition set_watermark (source_name : string) (new_watermark : datetime)
  : M unit :=
  call OpSetWatermark (WatermarkSet source_name new_watermark)
    (on_db (sql_set_watermark source_name new_watermark
              (env_now env OpSetWatermark))).

(** The insert is refused when [run_id], which is unique, is already
    stored. *)
Definition create_pipeline_run (run_id pipeline_name : string) : M unit :=
  w ← get_world;
  if existsb (fun r => String.eqb (Db.run_id r) run_id)
       (Db.pipeline_runs (db w))
  then
    refused OpCreateRun
      (Exn "UniqueViolation" "duplicate key value: run_id")
  else
    call OpCreateRun (RunCreated run_id pipeline_name)
      (on_db (sql_insert_run run_id pipeline_name
                (env_now env OpCreateRun))).

Definition finish_pipeline_run (run_id status : string)
    (row_count : option Z) (error_message : option string) : M unit :=
  call (OpFinishRun status)
    (RunFinished run_id status row_count error_message)
    (on_db (sql_finish_run run_id status row_count error_message
              (env_now env (OpFinishRun status)))).

(** The [since] parameter is sent as
    [strftime("%Y-%m-%dT%H:%M:%SZ")]: the request carries the watermark
    without its microseconds. *)
Definition since_param (since : datetime) : datetime :=
  mk_datetime (year since) (month since) (day since)
    (hour since) (minute since) (second since) 0.

Definition fetch_api_records (since : option datetime) (limit : Z)
  : M (list RawRecord) := fun w =>
  let since := since_param <$> since in
  match env_api env since limit with
  | Ok records =>
      {| res := Ok records; final := w;
         trace := [Fetched since limit records] |}
  | Raise e =>
      {| res := Raise e; final := w; trace := [Failed OpFetch e] |}
  end.

Definition write_bronze_jsonl (records : list RawRecord) (run_id : string)
  : M BronzePath :=
  let now := env_now env OpWriteBronze in
  let out_path :=
    {| dt := (year now, month now, day now); file_run_id := run_id |} in
  call OpWriteBronze (Archived out_path records)
    (on_bronze (write_file out_path records));;
  mret out_path.

(** The body of the [for r in records] loop of [upsert_staging]: the row
    tuple, its parts evaluated in the order of the source. *)
Definition build_row (r : RawRecord) : result StagingRow :=
  submitted_at ← parse_submitted_at r;
  application_id ← getitem "application_id" (Raw.application_id r);
  applicant_id ← getitem "applicant_id" (Raw.applicant_id r);
  loan_amount ← getitem "loan_amount" (Raw.loan_amount r);
  loan_amount ← py_float loan_amount;
  purpose ← getitem "purpose" (Raw.purpose r);
  state ← getitem "state" (Raw.state r);
  annual_income ← getitem "annual_income" (Raw.annual_income r);
  annual_income ← py_float annual_income;
  Ok {| Db.application_id := application_id;
        Db.applicant_id := applicant_id;
        Db.submitted_at := Some submitted_at;
        Db.loan_amount := Some loan_amount;
        Db.purpose := purpose;
        Db.state := state;
        Db.annual_income := Some annual_income |}.

(** The [for r in records] loop of [upsert_staging]. *)
Fixpoint build_rows (records : list RawRecord) : result (list StagingRow) :=
  match records with
  | [] => Ok []
  | r :: records =>
      row ← build_row r;
      rows ← build_rows records;
      Ok (row :: rows)
  end.

Definition upsert_staging (records : list RawRecord) : M Z :=
  match records with
  | [] => mret 0
  | _ =>
      rows ← lift (build_rows records);
      call OpUpsert (Upserted rows) (on_db (sql_upsert rows));;
      mret (len rows)
  end.

Definition run_staging_checks : M QualityResult :=
  w ← get_world;
  let q := Quality.run_staging_checks (Db.loan_applications (db w))
             (env_now env OpChecks) in
  call OpChecks (GateEvaluated q) id;;
  mret q.

(** [max(submitted_ats)]: the first of the greatest elements. *)
Definition py_max (l : list datetime) : result datetime :=
  match l with
  | [] => Raise (ValueError "max() arg is an empty sequence")
  | x :: rest =>
      Ok (fold_left (fun m y => if dt_ltb m y then y else m) rest x)
  end.

Fixpoint submitted_ats (records : list RawRecord)
  : result (list datetime) :=
  match records with
  | [] => Ok []
  | r :: records =>
      t ← parse_submitted_at r;
      ts ← submitted_ats records;
      Ok (t :: ts)
  end.

Definition compute_new_watermark (records : list RawRecord)
  : result (option datetime) :=
  match records with
  | [] => Ok None
  | _ => ts ← submitted_ats records; m ← py_max ts; Ok (Some m)
  end.

(** The body of the [try] block of [main]. *)
Definition steps : M unit :=
  let run_id := env_run_id env in
  create_pipeline_run run_id pipeline_name;;
  ensure_ingestion_state source_name;;
  watermark ← get_watermark source_name;
  log_event (watermark_loaded source_name watermark);;
  records ← fetch_api_records watermark 500;
  log_event (api_fetched (len records));;
  bronze_path ← write_bronze_jsonl records run_id;
  log_event (bronze_written bronze_path (len records));;
  row_count ← upsert_staging records;
  log_event (staging_upserted row_count);;
  quality ← run_staging_checks;
  (if negb (passed quality) then
     log_event (quality_failed (failures quality));;
     raise (RuntimeError ("Data quality checks failed: "
                          +:+ join " | " (failures quality)))
   else mret tt);;
  log_event quality_passed;;
  new_wm ← lift (compute_new_watermark records);
  match new_wm with
  | Some new_wm =>
      set_watermark source_name new_wm;;
      log_event (watermark_updated source_name new_wm)
  | None => mret tt
  end;;
  finish_pipeline_run run_id "success" (Some row_count) None;;
  log_event (pipeline_success pipeline_name run_id row_count).

(** The [except Exception as e] block of [main]. *)
Definition on_exception (e : exn) : M unit :=
  let run_id := env_run_id env in
  try_except
    (finish_pipeline_run run_id "failed" None (Some (str e)))
    (fun _ => mret tt);;
  log_event (pipeline_failed pipeline_name run_id (str e));;
  raise e.

Definition main : M unit :=
  log_event (pipeline_start pipeline_name (env_run_id env));;
  get_db_conn;;
  try_finally (try_except steps on_exception) close.

End Run.

End Ingest.

(** * Vocabulary of the properties *)

Import Ingest.

(** The staging relation, the watermark of the source and the archive
    object of a run. *)
Definition staging (w : World) : list StagingRow :=
  Db.loan_applications (db w).

Definition watermark (w : World) : option datetime :=
  lookup_watermark (db w) source_name.

Definition archive_of (env : Env) : BronzePath :=
  let now := env_now env OpWriteBronze in
  {| dt := (year now, month now, day now); file_run_id := env_run_id env |}.

(** The run [run_id] has a row, and its rows show this status, row count
    and error message. *)
Definition run_recorded (w : World) (run_id status : string)
    (row_count : option Z) (error_message : option string) : Prop :=
  (exists r, In r (Db.pipeline_runs (db w)) /\ Db.run_id r = run_id)
  /\ forall r, In r (Db.pipeline_runs (db w)) -> Db.run_id r = run_id ->
       Db.status r = status /\ Db.row_count r = row_count
       /\ Db.error_message r = error_message.

(** The attempt of the [except] block to record the failure [e]: the update
    of the run row, or the exception it raised. *)
Definition failure_record (env : Env) (e : exn) : Effect :=
  match env_fault env (OpFinishRun "failed") with
  | Some e' => Failed (OpFinishRun "failed") e'
  | None => RunFinished (env_run_id env) "failed" None (Some (str e))
  end.

(** The four ordered side effects of a run. *)
Definition stage (ef : Effect) : option nat :=
  match ef with
  | Archived _ _ => Some 1%nat
  | Upserted _ => Some 2%nat
  | GateEvaluated _ => Some 3%nat
  | WatermarkSet _ _ => Some 4%nat
  | _ => None
  end.

Definition stages (tr : list Effect) : list nat := omap stage tr.

(** In [tr], every effect of stage [m] comes before every effect of stage
    [n]. *)
Definition precedes (m n : nat) (tr : list Effect) : Prop :=
  forall i j a b,
    tr !! i = Some a -> tr !! j = Some b ->
    stage a = Some m -> stage b = Some n -> (i < j)%nat.

Definition occurs (n : nat) (tr : list Effect) : Prop :=
  exists a, In a tr /\ stage a = Some n.

(** What one statement, and a batch of statements, leave of a stored row. *)
Definition overwrite (row old : StagingRow) : StagingRow :=
  if conflicts row old then row else old.

Definition resolve (rows : list StagingRow) (x : StagingRow) : StagingRow :=
  fold_left (fun x row => overwrite row x) rows x.

(** [m] is the greatest of the timestamps [ts]. *)
Definition is_greatest (m : datetime) (ts : list datetime) : Prop :=
  In m ts /\ Forall (fun t => dt_le t m) ts.

(** The line "<check-name>: <N> failing rows" of a check that selects
    [count] rows, no line when it selects none. *)
Definition reported (name : string) (count : nat) : list string :=
  if (0 <? count)%nat
  then [name +:+ ": " +:+ pretty count +:+ " failing rows"]
  else [].


(** [row] holds the fields of the record [r]: the four text fields as they
    are, the timestamp read from its string, the two amounts as [float]
    gives them. *)
Definition row_of (fromisoformat : string -> option datetime)
    (py_float : json -> result Z) (r : RawRecord) (row : StagingRow)
  : Prop :=
  Raw.application_id r = Some (Db.application_id row)
  /\ Raw.applicant_id r = Some (Db.applicant_id row)
  /\ (exists s t,
        Raw.submitted_at r = Some (Raw.JString s)
        /\ fromisoformat (replace_Z s) = Some t
        /\ Db.submitted_at row = Some t)
  /\ (exists v a,
        Raw.loan_amount r = Some v /\ py_float v = Ok a
        /\ Db.loan_amount row = Some a)
  /\ Raw.purpose r = Some (Db.purpose row)
  /\ Raw.state r = Some (Db.state row)
  /\ (exists v a,
        Raw.annual_income r = Some v /\ py_float v = Ok a
        /\ Db.annual_income row = Some a).



(** [wp m w Q]: the outcome of [m] from the world [w] satisfies [Q]. *)
Definition wp {A} (m : M A) (w : World)
    (Q : result A -> World -> list Effect -> Prop) : Prop :=
  Q (res (m w)) (final (m w)) (trace (m w)).

(** * Scenarios *)

Module Scenario.

Definition ids (n : nat) : string := "id-" +:+ pretty n.

Definition loan (id submitted_at : string) (amount : Z) : RawRecord :=
  {| Raw.application_id := Some (Some id);
     Raw.applicant_id := Some (Some ("applicant-" +:+ id));
     Raw.submitted_at := Some (Raw.JString submitted_at);
     Raw.loan_amount := Some (Raw.JNumber amount);
     Raw.purpose := Some (Some "auto");
     Raw.state := Some (Some "NY");
     Raw.annual_income := Some (Raw.JNumber 52000) |}.


Definition fresh : World :=
  {| db := {| Db.ingestion_state := [];
              Db.pipeline_runs := [];
              Db.loan_applications := [] |};
     bronze := [] |}.

Definition noon : datetime := mk_datetime 2026 2 24 12 0 0 0.

(** A run in which nothing fails and the source answers [records]. *)
Definition calm (run_id : string) (records : list RawRecord) : Env :=
  {| env_run_id := run_id;
     env_api := fun _ _ => Ok records;
     env_fault := fun _ => None;
     env_now := fun _ => noon |}.

(** A first run that merges a record with [loan_amount = 0]; a second run
    that fetches nothing. *)
Definition bad_run : Env :=
  calm "run-1" [loan "a-1" "2026-02-24T10:01:00Z" 0].
Definition after_bad_run : World :=
  final (main fromisoformat_utc float_exact bad_run fresh).
Definition empty_run : Env := calm "run-2" [].


(** A run whose merge fails and whose failure cannot be recorded. *)
Definition store_down : Env :=
  {| env_run_id := "run-1";
     env_api := fun _ _ => Ok [loan "a-1" "2026-02-24T10:01:00Z" 1000];
     env_fault := fun op =>
       match op with
       | OpUpsert => Some (Exn "OperationalError" "connection lost")
       | OpFinishRun _ =>
           Some (Exn "InFailedSqlTransaction" "transaction is aborted")
       | _ => None
       end;
     env_now := fun _ => noon |}.

Definition three_loans : list RawRecord :=
  [ loan "a-1" "2026-02-24T10:01:00Z" 1000;
    loan "a-2" "2026-02-24T10:02:00Z" 2000;
    loan "a-1" "2026-02-24T10:03:00Z" 3000 ].

End Scenario.

(** * Vocabulary of the further properties *)

(** A staging row the four checks select in none of their queries. *)
Definition row_valid (now : datetime) (x : StagingRow) : Prop :=
  (Db.application_id x <> None /\ Db.applicant_id x <> None
   /\ Db.submitted_at x <> None /\ Db.loan_amount x <> None
   /\ Db.purpose x <> None /\ Db.state x <> None
   /\ Db.annual_income x <> None)
  /\ (forall v, Db.loan_amount x = Some v -> 0 < v)
  /\ (forall v, Db.annual_income x = Some v -> 0 < v)
  /\ (forall t, Db.submitted_at x = Some t ->
        to_micros t <= to_micros now + 300000000).

(** The minute a timestamp lies in. *)
Definition minute_of (d : datetime) : datetime :=
  mk_datetime (year d) (month d) (day d) (hour d) (minute d) 0 0.

(** The hour a timestamp lies in. *)
Definition hour_of (d : datetime) : datetime :=
  mk_datetime (year d) (month d) (day d) (hour d) 0 0 0.

Module Scenario2.

(** A run in which everything succeeds but the last update of the run
    row. *)
Definition finish_down : Env :=
  {| env_run_id := "run-1";
     env_api := fun _ _ =>
       Ok [Scenario.loan "a-1" "2026-02-24T10:01:00Z" 1000];
     env_fault := fun op =>
       match op with
       | OpFinishRun "success" =>
           Some (Exn "OperationalError" "connection lost")
       | _ => None
       end;
     env_now := fun _ => Scenario.noon |}.

Definition malformed : list RawRecord :=
  [ Scenario.loan "a-1" "2026-02-24T10:01:00Z" 1000;
    Scenario.loan "a-2" "yesterday" 2000 ].

(** The rows built from [Scenario.three_loans], whose first and third
    records have the same key. *)
Definition three_rows : list StagingRow :=
  match build_rows fromisoformat_utc float_exact Scenario.three_loans with
  | Ok rows => rows
  | Raise _ => []
  end.

Definition third_row : StagingRow :=
  {| Db.application_id := Some "a-1";
     Db.applicant_id := Some "applicant-a-1";
     Db.submitted_at := Some (mk_datetime 2026 2 24 10 3 0 0);
     Db.loan_amount := Some 3000;
     Db.purpose := Some "auto";
     Db.state := Some "NY";
     Db.annual_income := Some 52000 |}.


(** The row the run [Scenario.bad_run] has stored. *)
Definition bad_row : StagingRow :=
  {| Db.application_id := Some "a-1";
     Db.applicant_id := Some "applicant-a-1";
     Db.submitted_at := Some (mk_datetime 2026 2 24 10 1 0 0);
     Db.loan_amount := Some 0;
     Db.purpose := Some "auto";
     Db.state := Some "NY";
     Db.annual_income := Some 52000 |}.

End Scenario2.

(** * Properties *)

(** ** The staging merge *)

Section StagingMerge.

Implicit Types (t rows : list StagingRow) (row old x : StagingRow).

Lemma sql_eqb_true a b :
  Db.sql_eqb a b = true <-> exists s, a = Some s /\ b = Some s.
Proof.
  destruct a as [x|], b as [y|]; simpl; split;
    try (intros [s [? ?]]; discriminate); try discriminate.
  - intros H. apply String.eqb_eq in H. subst. eauto.
  - intros [s [[= ->] [= ->]]]. apply String.eqb_refl.
Qed.

Lemma conflicts_key row old :
  conflicts row old = true ->
  Db.application_id old = Db.application_id row.
Proof.
  unfold conflicts. rewrite sql_eqb_true. intros [s [-> ->]]. reflexivity.
Qed.

Lemma conflicts_refl row :
  is_Some (Db.application_id row) -> conflicts row row = true.
Proof.
  intros [s Hs]. unfold conflicts. rewrite sql_eqb_true. eauto.
Qed.

Lemma conflicts_same_key row row' old :
  Db.application_id row = Db.application_id row' ->
  conflicts row old = conflicts row' old.
Proof. unfold conflicts. intros ->. reflexivity. Qed.

(** On a conflict the stored row becomes the new row, whole. *)
Lemma do_update_conflict row old :
  conflicts row old = true -> do_update old row = row.
Proof.
  intros H. apply conflicts_key in H.
  destruct row, old; unfold do_update; simpl in *. congruence.
Qed.

Lemma upsert_row_present t row :
  existsb (conflicts row) t = true ->
  upsert_row t row = map (overwrite row) t.
Proof.
  intros H. unfold upsert_row. rewrite H. apply map_ext.
  intros old. unfold overwrite.
  destruct (conflicts row old) eqn:E; [apply do_update_conflict|]; done.
Qed.

Lemma upsert_row_absent t row :
  existsb (conflicts row) t = false -> upsert_row t row = t ++ [row].
Proof. intros H. unfold upsert_row. rewrite H. reflexivity. Qed.

Lemma overwrite_key row old :
  Db.application_id (overwrite row old) = Db.application_id old.
Proof.
  unfold overwrite. destruct (conflicts row old) eqn:E; [|done].
  symmetry. by apply conflicts_key.
Qed.

Lemma existsb_overwrite r row t :
  existsb (conflicts r) (map (overwrite row) t) = existsb (conflicts r) t.
Proof.
  induction t as [|old t IH]; simpl; [done|]. rewrite IH. f_equal.
  unfold conflicts. by rewrite overwrite_key.
Qed.

(** A statement never removes a key from the table. *)
Lemma upsert_row_keeps_key r row t :
  existsb (conflicts r) t = true ->
  existsb (conflicts r) (upsert_row t row) = true.
Proof.
  intros H. destruct (existsb (conflicts row) t) eqn:E.
  - rewrite upsert_row_present by done. by rewrite existsb_overwrite.
  - rewrite upsert_row_absent by done. rewrite existsb_app, H. done.
Qed.

Lemma upsert_row_has_key row t :
  is_Some (Db.application_id row) ->
  existsb (conflicts row) (upsert_row t row) = true.
Proof.
  intros Hk. destruct (existsb (conflicts row) t) eqn:E.
  - by apply upsert_row_keeps_key.
  - rewrite upsert_row_absent by done. rewrite existsb_app. simpl.
    rewrite conflicts_refl by done. by rewrite orb_true_r.
Qed.

Lemma executemany_app rows1 rows2 t :
  executemany (rows1 ++ rows2) t = executemany rows2 (executemany rows1 t).
Proof. unfold executemany. apply fold_left_app. Qed.

Lemma executemany_keeps_key r rows t :
  existsb (conflicts r) t = true ->
  existsb (conflicts r) (executemany rows t) = true.
Proof.
  revert t. induction rows as [|row rows IH]; intros t H; simpl; [done|].
  apply IH. by apply upsert_row_keeps_key.
Qed.

Lemma executemany_has_keys rows t r :
  Forall (fun row => is_Some (Db.application_id row)) rows ->
  In r rows -> existsb (conflicts r) (executemany rows t) = true.
Proof.
  revert t. induction rows as [|row rows IH]; intros t Hk Hin; [done|].
  inversion Hk; subst. simpl. destruct Hin as [->|Hin].
  - apply executemany_keeps_key. by apply upsert_row_has_key.
  - by apply IH.
Qed.

Lemma executemany_present rows t :
  (forall r, In r rows -> existsb (conflicts r) t = true) ->
  executemany rows t = map (resolve rows) t.
Proof.
  revert t. induction rows as [|row rows IH]; intros t H; simpl.
  - by rewrite map_id.
  - rewrite upsert_row_present by (apply H; by left).
    rewrite IH.
    + by rewrite map_map.
    + intros r Hr. rewrite existsb_overwrite. apply H. by right.
Qed.

Lemma resolve_key rows x :
  Db.application_id (resolve rows x) = Db.application_id x.
Proof.
  revert x. induction rows as [|row rows IH]; intros x; simpl; [done|].
  by rewrite IH, overwrite_key.
Qed.

Lemma resolve_snoc rows row x :
  resolve (rows ++ [row]) x = overwrite row (resolve rows x).
Proof. unfold resolve. by rewrite fold_left_app. Qed.

Lemma resolve_unkeyed rows x :
  Db.application_id x = None -> resolve rows x = x.
Proof.
  intros Hx. induction rows as [|row rows IH] using rev_ind; [done|].
  rewrite resolve_snoc, IH. unfold overwrite, conflicts. by rewrite Hx.
Qed.

(** Every stored row is already what the batch makes of it. *)
Lemma executemany_resolved rows t x :
  In x (executemany rows t) -> resolve rows x = x.
Proof.
  revert x. induction rows as [|row rows IH] using rev_ind; intros x Hin.
  { done. }
  rewrite executemany_app in Hin. simpl in Hin.
  rewrite resolve_snoc.
  assert (Hnew : overwrite row (resolve rows row) = row).
  { destruct (Db.application_id row) as [k|] eqn:Hkey.
    - unfold overwrite. unfold conflicts. rewrite resolve_key.
      fold (conflicts row row). rewrite conflicts_refl; [done|by eexists].
    - rewrite resolve_unkeyed by done. unfold overwrite.
      by destruct (conflicts row row). }
  destruct (existsb (conflicts row) (executemany rows t)) eqn:E.
  - rewrite upsert_row_present in Hin by done.
    apply in_map_iff in Hin as [old [<- Hold]].
    assert (Hold' : overwrite row old = if conflicts row old then row else old)
      by done.
    destruct (conflicts row old) eqn:C; rewrite Hold'; [done|].
    rewrite (IH old) by done. unfold overwrite. by rewrite C.
  - rewrite upsert_row_absent in Hin by done.
    apply in_app_or in Hin as [Hin|[<-|[]]]; [|done].
    rewrite (IH x) by done. unfold overwrite.
    destruct (conflicts row x) eqn:C; [|done].
    exfalso. cut (true = false); [done|]. rewrite <- E. symmetry.
    apply existsb_exists. eauto.
Qed.

(** Running a batch again changes nothing. *)
Lemma executemany_idempotent rows t :
  Forall (fun row => is_Some (Db.application_id row)) rows ->
  executemany rows (executemany rows t) = executemany rows t.
Proof.
  intros Hk. rewrite executemany_present.
  - rewrite <- (map_id (executemany rows t)) at 2.
    apply map_ext_in. intros x Hx. by apply (executemany_resolved rows t).
  - intros r Hr. by apply executemany_has_keys.
Qed.

(** The uniqueness of [application_id] is kept: no statement adds a second
    row for a key. *)
Lemma overwrite_keys row t :
map Db.application_id (map (overwrite row) t) = map Db.application_id t.
Proof.
rewrite map_map. apply map_ext. intros old. apply overwrite_key.
Qed.




End StagingMerge.

Section StagingUpsert.
Variable fromisoformat : string -> option datetime.
Variable py_float : json -> result Z.
Variable env : Env.

(** What a row that was built holds. *)
Lemma build_row_ok r row :
  build_row fromisoformat py_float r = Ok row ->
  row_of fromisoformat py_float r row.
Proof.
  unfold build_row, parse_submitted_at, getitem, row_of.
  destruct r as [k a s l p st i]. cbn.
  destruct s as [[| | |s| |]|]; cbn; try done.
  destruct (fromisoformat (replace_Z s)) as [t|] eqn:Ht; cbn; [|done].
  destruct k as [k|]; cbn; [|done].
  destruct a as [a|]; cbn; [|done].
  destruct l as [l|]; cbn; [|done].
  destruct (py_float l) as [lv|] eqn:Hl; cbn; [|done].
  destruct p as [p|]; cbn; [|done].
  destruct st as [st|]; cbn; [|done].
  destruct i as [i|]; cbn; [|done].
  destruct (py_float i) as [iv|] eqn:Hi; cbn; [|done].
  intros [= <-]. cbn.
  split; [done|]. split; [done|]. split; [by exists s, t|].
  split; [by exists l, lv|]. split; [done|]. split; [done|].
  by exists i, iv.
Qed.

Lemma build_rows_cons r records rows :
  build_rows fromisoformat py_float (r :: records) = Ok rows ->
  exists row rows',
    build_row fromisoformat py_float r = Ok row
    /\ build_rows fromisoformat py_float records = Ok rows'
    /\ rows = row :: rows'.
Proof.
  cbn [build_rows].
  destruct (build_row fromisoformat py_float r) as [row|]; [|done].
  cbn. destruct (build_rows fromisoformat py_float records) as [rows'|];
    [|done].
  cbn. intros [= <-]. eauto.
Qed.

(** The rows of a batch are those of its records, one for one. *)
Lemma build_rows_rows records rows :
  build_rows fromisoformat py_float records = Ok rows ->
  Forall2 (fun r row => build_row fromisoformat py_float r = Ok row)
    records rows.
Proof.
  revert rows. induction records as [|r records IH]; intros rows H.
  - injection H as <-. constructor.
  - apply build_rows_cons in H as (row & rows' & Hrow & Hrows & ->).
    constructor; [done|by apply IH].
Qed.

Lemma build_rows_in records rows x :
  build_rows fromisoformat py_float records = Ok rows -> In x rows ->
  exists r, In r records /\ build_row fromisoformat py_float r = Ok x.
Proof.
  intros H. apply build_rows_rows in H.
  induction H as [|r row records rows Hrow _ IH]; [done|].
  intros [<-|Hx].
  - exists r. split; [by left|done].
  - destruct (IH Hx) as (r' & Hr' & Hrow'). exists r'. split; [by right|done].
Qed.

Lemma build_rows_length records rows :
  build_rows fromisoformat py_float records = Ok rows ->
  length rows = length records.
Proof.
  intros H. apply build_rows_rows in H. symmetry.
  by apply Forall2_length in H.
Qed.



(** What [upsert_staging] does with a non-empty batch. *)
Lemma upsert_staging_ok records w n :
  res (upsert_staging fromisoformat py_float env records w) = Ok n ->
  records = [] /\ n = 0
         /\ final (upsert_staging fromisoformat py_float env records w) = w
  \/ exists rows,
       records <> [] /\ build_rows fromisoformat py_float records = Ok rows
       /\ env_fault env OpUpsert = None /\ n = len rows
       /\ final (upsert_staging fromisoformat py_float env records w)
          = on_db (sql_upsert rows) w.
Proof.
  destruct records as [|r records]; [intros [= <-]; by left|].
  unfold upsert_staging, lift, call, mbind, M_bind, mret, M_ret.
  destruct (build_rows fromisoformat py_float (r :: records)) as [rows|];
    [|done].
  cbn. destruct (env_fault env OpUpsert); cbn; [done|].
  intros [= <-]. right. exists rows. done.
Qed.

End StagingUpsert.








(** C9.  [upsert_staging] on an empty sequence returns 0, leaves the world
    as it is and performs no effect, whatever the store would have done. *)
Theorem upsert_staging_empty_is_noop
    (fromisoformat : string -> option datetime)
    (py_float : json -> result Z) (env : Env) (w : World) :
  upsert_staging fromisoformat py_float env [] w
  = {| res := Ok 0; final := w; trace := [] |}.
Proof. reflexivity. Qed.

(** ** The quality gate *)

Lemma reported_nil name count : reported name count = [] <-> count = 0%nat.
Proof.
  unfold reported. destruct count; simpl; split; try done.
Qed.

Lemma null_required_fields_spec (x : StagingRow) :
  null_required_fields x = true <->
  Db.application_id x = None \/ Db.applicant_id x = None
  \/ Db.submitted_at x = None \/ Db.loan_amount x = None
  \/ Db.purpose x = None \/ Db.state x = None \/ Db.annual_income x = None.
Proof.
  unfold null_required_fields, Db.is_null.
  destruct x as [[?|] [?|] [?|] [?|] [?|] [?|] [?|]]; simpl;
    intuition congruence.
Qed.

Lemma loan_amount_positive_spec (x : StagingRow) :
  loan_amount_positive x = true <->
  exists v, Db.loan_amount x = Some v /\ v <= 0.
Proof.
  unfold loan_amount_positive. destruct (Db.loan_amount x) as [v|].
  - rewrite Z.leb_le. split; [eauto|]. by intros [? [[= <-] ?]].
  - split; [done|]. by intros [? [? ?]].
Qed.

Lemma annual_income_positive_spec (x : StagingRow) :
  annual_income_positive x = true <->
  exists v, Db.annual_income x = Some v /\ v <= 0.
Proof.
  unfold annual_income_positive. destruct (Db.annual_income x) as [v|].
  - rewrite Z.leb_le. split; [eauto|]. by intros [? [[= <-] ?]].
  - split; [done|]. by intros [? [? ?]].
Qed.

Lemma submitted_at_future_guard_spec now (x : StagingRow) :
  submitted_at_future_guard now x = true <->
  exists t, Db.submitted_at x = Some t
            /\ to_micros now + 300000000 < to_micros t.
Proof.
  unfold submitted_at_future_guard. destruct (Db.submitted_at x) as [t|].
  - rewrite Z.ltb_lt. split; [eauto|]. by intros [? [[= <-] ?]].
  - split; [done|]. by intros [? [? ?]].
Qed.

(** The gate's result, its checks taken as given. *)
Lemma run_staging_checks_lines (t : list StagingRow) (now : datetime) :
  failures (Quality.run_staging_checks t now)
  = reported "null_required_fields"
      (length (List.filter null_required_fields t))
    ++ reported "loan_amount_positive"
         (length (List.filter loan_amount_positive t))
    ++ reported "annual_income_positive"
         (length (List.filter annual_income_positive t))
    ++ reported "submitted_at_future_guard"
         (length (List.filter (submitted_at_future_guard now) t)).
Proof.
  unfold Quality.run_staging_checks, checks, check_step, reported,
    failure_line, count_rows.
  cbn [fold_left failures].
  destruct (0 <? length (List.filter null_required_fields t))%nat,
           (0 <? length (List.filter loan_amount_positive t))%nat,
           (0 <? length (List.filter annual_income_positive t))%nat,
           (0 <? length (List.filter (submitted_at_future_guard now) t))%nat;
    reflexivity.
Qed.

(** C5.  The gate runs the four checks one after the other on the whole
    staging relation, none of them skipped: with N1 the number of stored
    rows with a NULL in one of the seven required columns, N2 the number
    with [loan_amount <= 0], N3 the number with [annual_income <= 0] and N4
    the number whose [submitted_at] is more than five minutes (300 s) after
    the time of the check, [failures] is, in the order of the checks, the
    one line "<check-name>: <N> failing rows" of each check with N > 0, and
    [passed] is true exactly when the four numbers are 0. *)
Theorem run_staging_checks_accumulates (t : list StagingRow) (now : datetime) :
  let q := Quality.run_staging_checks t now in
  let n1 := length (List.filter null_required_fields t) in
  let n2 := length (List.filter loan_amount_positive t) in
  let n3 := length (List.filter annual_income_positive t) in
  let n4 := length (List.filter (submitted_at_future_guard now) t) in
  let line name n :=
    if (0 <? n)%nat
    then [name +:+ ": " +:+ pretty n +:+ " failing rows"] else [] in
  failures q
  = line "null_required_fields" n1 ++ line "loan_amount_positive" n2
    ++ line "annual_income_positive" n3
    ++ line "submitted_at_future_guard" n4
  /\ (passed q = true <->
      n1 = 0%nat /\ n2 = 0%nat /\ n3 = 0%nat /\ n4 = 0%nat)
  /\ (forall x,
        null_required_fields x = true <->
        Db.application_id x = None \/ Db.applicant_id x = None
        \/ Db.submitted_at x = None \/ Db.loan_amount x = None
        \/ Db.purpose x = None \/ Db.state x = None
        \/ Db.annual_income x = None)
  /\ (forall x,
        loan_amount_positive x = true <->
        exists v, Db.loan_amount x = Some v /\ v <= 0)
  /\ (forall x,
        annual_income_positive x = true <->
        exists v, Db.annual_income x = Some v /\ v <= 0)
  /\ (forall x,
        submitted_at_future_guard now x = true <->
        exists d, Db.submitted_at x = Some d
                  /\ to_micros now + 300 * 1000000 < to_micros d).
Proof.
  intros q n1 n2 n3 n4 line.
  assert (Hf : failures q
               = line "null_required_fields" n1
                 ++ line "loan_amount_positive" n2
                 ++ line "annual_income_positive" n3
                 ++ line "submitted_at_future_guard" n4)
    by apply run_staging_checks_lines.
  split; [exact Hf|]. split.
  - assert (Hp : passed q = (length (failures q) =? 0)%nat) by reflexivity.
    rewrite Hp, Hf, Nat.eqb_eq, length_zero_iff_nil.
    change line with reported.
    rewrite <- (reported_nil "null_required_fields" n1),
            <- (reported_nil "loan_amount_positive" n2),
            <- (reported_nil "annual_income_positive" n3),
            <- (reported_nil "submitted_at_future_guard" n4).
    split.
    + intros H. apply app_eq_nil in H as [-> H].
      apply app_eq_nil in H as [-> H]. apply app_eq_nil in H as [-> ->]. done.
    + intros (-> & -> & -> & ->). reflexivity.
  - split; [apply null_required_fields_spec|].
    split; [apply loan_amount_positive_spec|].
    split; [apply annual_income_positive_spec|].
    apply submitted_at_future_guard_spec.
Qed.

(** The gate on a relation of two rows, one of them with a loan amount of
    0. *)
Example run_staging_checks_one_bad_row :
  Quality.run_staging_checks [Scenario2.third_row; Scenario2.bad_row]
    Scenario.noon
  = {| passed := false;
       failures := ["loan_amount_positive: 1 failing rows"] |}.
Proof. reflexivity. Qed.

(** ** The mock source *)

Section MockSource.
Import MockApi.
Variable fromisoformat : string -> option datetime.
Variable uuid4 : nat -> string.

Lemma valid_time_spec h m s us :
  valid_time h m s us = true <->
  0 <= h <= 23 /\ 0 <= m <= 59 /\ 0 <= s <= 59 /\ 0 <= us <= 999999.
Proof.
  unfold valid_time. rewrite !andb_true_iff, !Z.leb_le. lia.
Qed.

Lemma check_time_fields_ok h m s us :
  valid_time h m s us = true -> check_time_fields h m s us = Ok tt.
Proof.
  unfold valid_time, check_time_fields. intros H.
  repeat (apply andb_true_iff in H as [H ?]).
  repeat match goal with Hx : _ = true |- _ => rewrite Hx; clear Hx end.
  reflexivity.
Qed.

Lemma replace_ok d h m s us :
  valid_time (default (hour d) h) (default (minute d) m)
    (default (second d) s) (default (microsecond d) us) = true ->
  replace d h m s us
  = Ok (mk_datetime (year d) (month d) (day d)
          (default (hour d) h) (default (minute d) m)
          (default (second d) s) (default (microsecond d) us)).
Proof.
  intros H. unfold replace. rewrite check_time_fields_ok by done.
  reflexivity.
Qed.

Lemma advance_within_hour cursor :
  0 <= hour cursor <= 23 -> 0 <= minute cursor < 59 ->
  advance cursor =
    Ok (mk_datetime (year cursor) (month cursor) (day cursor)
          (hour cursor) (minute cursor + 1) 0 0).
Proof.
  intros Hh Hm. unfold advance.
  rewrite replace_ok by (apply valid_time_spec; simpl; lia). cbn.
  destruct (Z.ltb_spec0 (minute cursor) 59); [|lia].
  rewrite replace_ok by (apply valid_time_spec; simpl; lia). reflexivity.
Qed.

Lemma advance_end_of_day cursor :
  hour cursor = 23 -> minute cursor = 59 ->
  advance cursor = Raise (ValueError "hour must be in 0..23").
Proof.
  intros Hh Hm. unfold advance.
  rewrite replace_ok by (apply valid_time_spec; simpl; lia). cbn.
  rewrite Hh, Hm. reflexivity.
Qed.

(** From 23:mm the loop reaches 23:59 and raises there, when the limit
    leaves it enough iterations and [now] is past the end of the day. *)
Lemma generate_end_of_day (k : nat) :
  forall remaining now cursor records,
    hour cursor = 23 -> minute cursor = 59 - Z.of_nat k ->
    0 <= minute cursor ->
    (k < remaining)%nat ->
    dt_lt (mk_datetime (year cursor) (month cursor) (day cursor) 23 59 0 0)
          now ->
    generate uuid4 remaining now cursor records
    = Raise (ValueError "hour must be in 0..23").
Proof.
  induction k as [|k IH]; intros remaining now cursor records Hh Hm H0 Hr Hnow;
    (destruct remaining as [|remaining]; [lia|]); simpl.
  - rewrite advance_end_of_day by lia. reflexivity.
  - rewrite advance_within_hour by lia. cbn.
    assert (Hlt : dt_ltb
              (mk_datetime (year cursor) (month cursor) (day cursor)
                 (hour cursor) (minute cursor + 1) 0 0) now = true).
    { unfold dt_ltb. apply Z.ltb_lt. unfold dt_lt, to_micros in *.
      simpl in *. lia. }
    rewrite Hlt. cbn. apply IH; simpl; try lia. exact Hnow.
Qed.

(** With no [since] the cursor starts at the top of the current hour:
    [max(0, start.minute - 60)] is 0 for every minute. *)
Lemma window_start_default now :
  valid_time (hour now) (minute now) (second now) (microsecond now) = true ->
  window_start fromisoformat None now
  = Ok (mk_datetime (year now) (month now) (day now) (hour now) 0 0 0).
Proof.
  intros H. apply valid_time_spec in H. unfold window_start.
  rewrite replace_ok by (apply valid_time_spec; simpl; lia). cbn.
  replace (Z.max 0 (minute now - 60)) with 0 by lia.
  rewrite replace_ok by (apply valid_time_spec; simpl; lia). reflexivity.
Qed.

End MockSource.

(** C10.  The record-generation loop is not total: for a [since] in the
    last hour of a day, a limit that lets the cursor reach 23:59 and a [now]
    after that minute, the handler raises the [ValueError] of
    [replace(hour=24)] instead of returning a list. *)
Theorem loan_applications_raises_at_end_of_day
    (fromisoformat : string -> option datetime) (uuid4 : nat -> string)
    (since : string) (start : datetime) (limit : Z) (now : datetime) :
  fromisoformat (replace_Z since) = Some start ->
  hour start = 23 -> 0 <= minute start <= 59 ->
  1 <= limit <= 500 -> 60 - minute start <= limit ->
  dt_lt (mk_datetime (year start) (month start) (day start) 23 59 0 0) now ->
  MockApi.loan_applications fromisoformat uuid4 (Some since) (Some limit) now
  = Raise (ValueError "hour must be in 0..23").
Proof.
  intros Hparse Hh Hm Hl Hlim Hnow.
  assert (Hrange : (1 <=? limit) && (limit <=? 500) = true).
  { apply andb_true_iff. rewrite !Z.leb_le. lia. }
  unfold MockApi.loan_applications, MockApi.window_start.
  rewrite Hparse. cbn. rewrite Hrange. cbn [negb].
  apply (generate_end_of_day uuid4 (Z.to_nat (59 - minute start)));
    try done; lia.
Qed.

Lemma loan_applications_raises_at_end_of_day_witness :
  MockApi.loan_applications fromisoformat_utc Scenario.ids
    (Some "2026-02-24T23:30:00Z") (Some 50) (mk_datetime 2026 2 25 1 0 0 0)
  = Raise (ValueError "hour must be in 0..23").
Proof.
  apply (loan_applications_raises_at_end_of_day fromisoformat_utc
           Scenario.ids "2026-02-24T23:30:00Z"
           (mk_datetime 2026 2 24 23 30 0 0)).
  - reflexivity.
  - reflexivity.
  - simpl; lia.
  - lia.
  - simpl; lia.
  - vm_compute. reflexivity.
Defined.

(** C8.  With no [since], at 10:30:00 and with the largest limit, the
    handler returns the 29 records of 10:01 to 10:29: the window starts at
    the top of the current hour, and nothing of 09:30 to 10:00 is returned. *)
Theorem null_since_window_starts_at_top_of_hour :
  exists records,
    MockApi.loan_applications fromisoformat_utc Scenario.ids None (Some 500)
      (mk_datetime 2026 2 24 10 30 0 0) = Ok records
    /\ map MockApi.submitted_at records
       = map (fun m => mk_datetime 2026 2 24 10 (Z.of_nat m) 0 0) (seq 1 29).
Proof.
  eexists. split; [vm_compute; reflexivity|]. vm_compute. reflexivity.
Qed.

(** ** The store *)

Section Store.
Implicit Types (d : Db.Database) (now : datetime).

Lemma ensure_loan_applications s now d :
  Db.loan_applications (sql_ensure_state s now d) = Db.loan_applications d.
Proof. unfold sql_ensure_state. by destruct (existsb _ _). Qed.

Lemma ensure_pipeline_runs s now d :
  Db.pipeline_runs (sql_ensure_state s now d) = Db.pipeline_runs d.
Proof. unfold sql_ensure_state. by destruct (existsb _ _). Qed.

Lemma find_absent {A} (f : A -> bool) (l : list A) :
  existsb f l = false -> List.find f l = None.
Proof.
  induction l as [|x l IH]; simpl; [done|].
  destruct (f x); simpl; [done|exact IH].
Qed.

Lemma find_app_absent {A} (f : A -> bool) (l l' : list A) :
  existsb f l = false -> List.find f (l ++ l') = List.find f l'.
Proof.
  induction l as [|x l IH]; simpl; [done|].
  destruct (f x); simpl; [done|exact IH].
Qed.

(** Inserting the row of a source when it is absent does not change what
    [get_watermark] reads. *)
Lemma lookup_watermark_ensure s now d :
  lookup_watermark (sql_ensure_state s now d) s = lookup_watermark d s.
Proof.
  unfold sql_ensure_state, lookup_watermark. cbv zeta.
  destruct (existsb _ _) eqn:E; [done|].
  rewrite (find_absent _ _ E). cbn [with_ingestion_state Db.ingestion_state].
  rewrite (find_app_absent _ _ _ E). cbn.
  by rewrite String.eqb_refl.
Qed.

Lemma ensure_present s now d :
  existsb (fun r => String.eqb (Db.source_name r) s)
    (Db.ingestion_state (sql_ensure_state s now d)) = true.
Proof.
  unfold sql_ensure_state. cbv zeta.
  destruct (existsb _ (Db.ingestion_state d)) eqn:E; [done|].
  cbn [with_ingestion_state Db.ingestion_state].
  rewrite existsb_app. cbn [existsb Db.source_name].
  by rewrite String.eqb_refl, !orb_true_r.
Qed.

(** The update of a source that has a row is what [get_watermark] reads
    next. *)
Lemma lookup_watermark_set s new_watermark now d :
  existsb (fun r => String.eqb (Db.source_name r) s) (Db.ingestion_state d)
  = true ->
  lookup_watermark (sql_set_watermark s new_watermark now d) s
  = Some new_watermark.
Proof.
  unfold sql_set_watermark, lookup_watermark. cbn.
  induction (Db.ingestion_state d) as [|r t IH]; simpl; [done|].
  destruct (String.eqb (Db.source_name r) s) eqn:E; simpl.
  - by rewrite E.
  - rewrite E. exact IH.
Qed.

Lemma finish_run_recorded run_id status row_count error_message now d :
  (exists r, In r (Db.pipeline_runs d) /\ Db.run_id r = run_id) ->
  let d' := sql_finish_run run_id status row_count error_message now d in
  (exists r, In r (Db.pipeline_runs d') /\ Db.run_id r = run_id)
  /\ forall r, In r (Db.pipeline_runs d') -> Db.run_id r = run_id ->
       Db.status r = status /\ Db.row_count r = row_count
       /\ Db.error_message r = error_message.
Proof.
  intros [r0 [Hin Hid]]. cbn. split.
  - eexists. split; [apply in_map, Hin|].
    destruct (String.eqb _ _); done.
  - intros r Hr Hrid. apply in_map_iff in Hr as [r' [<- Hr']].
    destruct (String.eqb (Db.run_id r') run_id) eqn:E; [done|].
    apply String.eqb_neq in E. done.
Qed.

Lemma read_write_file path content fs :
  read_file path (write_file path content fs) = Some content.
Proof.
  unfold read_file, write_file. cbn. by rewrite bool_decide_eq_true_2.
Qed.

(** Each statement writes one relation and leaves the others. *)
Lemma insert_run_loan_applications run_id p now d :
Db.loan_applications (sql_insert_run run_id p now d) = Db.loan_applications d.
Proof. reflexivity. Qed.

Lemma insert_run_ingestion_state run_id p now d :
Db.ingestion_state (sql_insert_run run_id p now d) = Db.ingestion_state d.
Proof. reflexivity. Qed.

Lemma finish_run_loan_applications run_id st rc err now d :
Db.loan_applications (sql_finish_run run_id st rc err now d)
= Db.loan_applications d.
Proof. reflexivity. Qed.

Lemma finish_run_ingestion_state run_id st rc err now d :
Db.ingestion_state (sql_finish_run run_id st rc err now d)
= Db.ingestion_state d.
Proof. reflexivity. Qed.

Lemma set_watermark_loan_applications s t now d :
Db.loan_applications (sql_set_watermark s t now d) = Db.loan_applications d.
Proof. reflexivity. Qed.

Lemma set_watermark_pipeline_runs s t now d :
Db.pipeline_runs (sql_set_watermark s t now d) = Db.pipeline_runs d.
Proof. reflexivity. Qed.

Lemma upsert_loan_applications rows d :
Db.loan_applications (sql_upsert rows d)
= executemany rows (Db.loan_applications d).
Proof. reflexivity. Qed.

Lemma upsert_pipeline_runs rows d :
Db.pipeline_runs (sql_upsert rows d) = Db.pipeline_runs d.
Proof. reflexivity. Qed.

Lemma upsert_ingestion_state rows d :
Db.ingestion_state (sql_upsert rows d) = Db.ingestion_state d.
Proof. reflexivity. Qed.

Lemma lookup_watermark_insert_run run_id p now d s :
lookup_watermark (sql_insert_run run_id p now d) s = lookup_watermark d s.
Proof. reflexivity. Qed.

Lemma lookup_watermark_finish_run run_id st rc err now d s :
lookup_watermark (sql_finish_run run_id st rc err now d) s
= lookup_watermark d s.
Proof. reflexivity. Qed.

Lemma lookup_watermark_upsert rows d s :
lookup_watermark (sql_upsert rows d) s = lookup_watermark d s.
Proof. reflexivity. Qed.

Lemma insert_run_present run_id p now d :
exists r, In r (Db.pipeline_runs (sql_insert_run run_id p now d))
          /\ Db.run_id r = run_id.
Proof.
eexists. split; [apply in_or_app; right; left; reflexivity|reflexivity].
Qed.

End Store.

Create Rewrite HintDb store.
#[local] Hint Rewrite ensure_loan_applications ensure_pipeline_runs
  lookup_watermark_ensure insert_run_loan_applications
  insert_run_ingestion_state finish_run_loan_applications
  finish_run_ingestion_state set_watermark_loan_applications
  set_watermark_pipeline_runs upsert_loan_applications upsert_pipeline_runs
  upsert_ingestion_state lookup_watermark_insert_run
  lookup_watermark_finish_run lookup_watermark_upsert : store.

(** The world after a sequence of writes, relation by relation. *)
Ltac store_simpl :=
  unfold staging, watermark;
  cbn [db bronze on_db on_bronze];
  autorewrite with store.

(** ** Outcomes of computations *)

Section Wp.
Variable fromisoformat : string -> option datetime.
Variable py_float : json -> result Z.
Variable env : Env.
Context {A B : Type}.
Implicit Types (w : World).

Lemma wp_ret (a : A) w Q : Q (Ok a) w [] -> wp (mret a) w Q.
Proof. done. Qed.

Lemma wp_raise (e : exn) w (Q : result A -> _) :
  Q (Raise e) w [] -> wp (raise e) w Q.
Proof. done. Qed.

Lemma wp_lift (r : result A) w Q : Q r w [] -> wp (lift r) w Q.
Proof. done. Qed.

Lemma wp_bind (m : M A) (k : A -> M B) w Q :
  wp m w (fun r w1 tr1 =>
    match r with
    | Ok a => wp (k a) w1 (fun r2 w2 tr2 => Q r2 w2 (tr1 ++ tr2))
    | Raise e => Q (Raise e) w1 tr1
    end) ->
  wp (m ≫= k) w Q.
Proof.
  unfold wp, mbind, M_bind. destruct (res (m w)); done.
Qed.

Lemma wp_try_except (body : M A) handler w Q :
  wp body w (fun r w1 tr1 =>
    match r with
    | Ok a => Q (Ok a) w1 tr1
    | Raise e => wp (handler e) w1 (fun r2 w2 tr2 => Q r2 w2 (tr1 ++ tr2))
    end) ->
  wp (try_except body handler) w Q.
Proof.
  unfold wp, try_except. destruct (res (body w)) eqn:E; [|done].
  by rewrite E.
Qed.

Lemma wp_try_finally (body : M A) cleanup w Q :
  wp body w (fun r w1 tr1 =>
    wp cleanup w1 (fun _ w2 tr2 => Q r w2 (tr1 ++ tr2))) ->
  wp (try_finally body cleanup) w Q.
Proof. done. Qed.

End Wp.

Section WpCalls.
Variable fromisoformat : string -> option datetime.
Variable py_float : json -> result Z.
Variable env : Env.
Implicit Types (w : World).

Lemma wp_get_world w Q : Q (Ok w) w [] -> wp get_world w Q.
Proof. done. Qed.

Lemma wp_log_event ev w Q : Q (Ok tt) w [Printed ev] -> wp (log_event ev) w Q.
Proof. done. Qed.

Lemma wp_close w Q : Q (Ok tt) w [Closed] -> wp close w Q.
Proof. done. Qed.

Lemma wp_refused op e w Q :
  Q (Raise e) w [Failed op e] -> wp (refused op e) w Q.
Proof. done. Qed.

Lemma wp_call op eff write w Q :
  match env_fault env op with
  | Some e => Q (Raise e) w [Failed op e]
  | None => Q (Ok tt) (write w) [eff]
  end ->
  wp (call env op eff write) w Q.
Proof. unfold wp, call. destruct (env_fault env op); done. Qed.

Lemma wp_fetch_api_records since limit w Q :
  match env_api env (since_param <$> since) limit with
  | Ok records =>
      Q (Ok records) w [Fetched (since_param <$> since) limit records]
  | Raise e => Q (Raise e) w [Failed OpFetch e]
  end ->
  wp (fetch_api_records env since limit) w Q.
Proof.
  unfold wp, fetch_api_records.
  destruct (env_api env (since_param <$> since) limit); done.
Qed.

End WpCalls.

(** One step of the run: the rule of the head construct, and a case
    split where the environment or the data decide. *)
Ltac head_of t := lazymatch t with ?f _ => head_of f | _ => t end.

Ltac wp_step :=
  lazymatch goal with
  | |- wp (mbind _ _) _ _ => apply wp_bind
  | |- wp (mret _) _ _ => apply wp_ret
  | |- wp (raise _) _ _ => apply wp_raise
  | |- wp (lift (compute_new_watermark ?f [])) _ _ =>
      change (compute_new_watermark f []) with (@Ok (option datetime) None);
      apply wp_lift
  | |- wp (lift ?r) _ _ => apply wp_lift; destruct r eqn:?
  | |- wp get_world _ _ => apply wp_get_world
  | |- wp (log_event _) _ _ => apply wp_log_event
  | |- wp close _ _ => apply wp_close
  | |- wp (refused _ _) _ _ => apply wp_refused
  | |- wp (call ?env ?op _ _) _ _ =>
      apply wp_call; destruct (env_fault env op) eqn:?
  | |- wp (fetch_api_records ?env ?s ?l) _ _ =>
      apply wp_fetch_api_records;
      destruct (env_api env (since_param <$> s) l) eqn:?
  | |- wp (try_except _ _) _ _ => apply wp_try_except
  | |- wp (try_finally _ _) _ _ => apply wp_try_finally
  | |- wp (if negb ?b then _ else _) _ _ => destruct b eqn:?; cbn [negb]
  | |- wp (if ?b then _ else _) _ _ => destruct b eqn:?
  | |- wp (match ?x with _ => _ end) _ _ => destruct x eqn:?
  | |- wp ?m _ _ => let h := head_of m in unfold h
  end; cbv beta iota zeta.

Ltac wp_run := repeat wp_step.

(** Membership in a trace that is known element by element. *)
Ltac in_trace H :=
  cbn [app In] in H;
  repeat (destruct H as [H|H]; [try discriminate H|]);
  try contradiction.

(** ** The orchestrator *)

Section Orchestrator.
Variable fromisoformat : string -> option datetime.
Variable py_float : json -> result Z.
Variable env : Env.

Lemma main_stages w :
  In (stages (trace (main fromisoformat py_float env w)))
     [[]; [1]; [1; 2]; [1; 3]; [1; 2; 3]; [1; 2; 3; 4]]%nat.
Proof.
  change (wp (main fromisoformat py_float env) w (fun _ _ tr =>
            In (stages tr)
               [[]; [1]; [1; 2]; [1; 3]; [1; 2; 3]; [1; 2; 3; 4]]%nat)).
  wp_run; cbn; auto 10.
Qed.

End Orchestrator.

(** ** Order of the side effects *)

Lemma stages_cons (x : Effect) (tr : list Effect) :
stages (x :: tr)
= match stage x with Some s => s :: stages tr | None => stages tr end.
Proof. reflexivity. Qed.

Lemma stage_in_stages (tr : list Effect) (i : nat) (a : Effect) (m : nat) :
tr !! i = Some a -> stage a = Some m -> In m (stages tr).
Proof.
intros Hi Ha. apply list_elem_of_In, list_elem_of_omap.
exists a. split; [|done]. apply list_elem_of_lookup. eauto.
Qed.

Lemma occurs_stages (n : nat) (tr : list Effect) :
occurs n tr <-> In n (stages tr).
Proof.
unfold occurs, stages. rewrite <- list_elem_of_In, list_elem_of_omap.
split; intros [a [Ha Hs]]; exists a; split; try done;
  by apply list_elem_of_In.
Qed.

(** When the stages met along a trace increase, an effect of a lower stage
    comes before every effect of a higher stage. *)
Lemma stages_precedes (tr : list Effect) :
StronglySorted lt (stages tr) ->
forall m n, (m < n)%nat -> precedes m n tr.
Proof.
induction tr as [|x tr IH]; intros Hs m n Hmn i j a b Hi Hj Ha Hb.
{ done. }
rewrite stages_cons in Hs.
assert (Htail : StronglySorted lt (stages tr)).
{ destruct (stage x); [by inversion Hs|done]. }
destruct i as [|i], j as [|j]; simpl in Hi, Hj.
- injection Hi as ->. injection Hj as ->. rewrite Ha in Hb.
  injection Hb as ->. lia.
- lia.
- injection Hj as ->. rewrite Hb in Hs. inversion Hs as [|? ? _ Hall]; subst.
  pose proof (stage_in_stages tr i a m Hi Ha) as Hin.
  rewrite List.Forall_forall in Hall. specialize (Hall m Hin). lia.
- apply -> Nat.succ_lt_mono. by apply (IH Htail m n Hmn i j a b).
Qed.

Section Order.
Variable fromisoformat : string -> option datetime.
Variable py_float : json -> result Z.
Variable env : Env.

Lemma main_stages_sorted w :
StronglySorted lt (stages (trace (main fromisoformat py_float env w))).
Proof.
pose proof (main_stages fromisoformat py_float env w) as H. cbn [In] in H.
repeat (destruct H as [<-|H]; [repeat constructor; lia|]). done.
Qed.

(** The watermark is written only after a gate that passed; the archive
    object written by a run is still there, whole, when the run ends; and a
    merge that fails comes after that write. *)
Lemma main_advance_and_archive w :
let o := main fromisoformat py_float env w in
(forall s t, In (WatermarkSet s t) (trace o) ->
   exists q, In (GateEvaluated q) (trace o) /\ passed q = true)
/\ (forall path records, In (Archived path records) (trace o) ->
     path = archive_of env
     /\ (exists since, In (Fetched since 500 records) (trace o))
     /\ read_file path (bronze (final o)) = Some records)
/\ (forall e, In (Failed OpUpsert e) (trace o) ->
     exists records, In (Archived (archive_of env) records) (trace o)).
Proof.
change (wp (main fromisoformat py_float env) w (fun _ w' tr =>
  (forall s t, In (WatermarkSet s t) tr ->
     exists q, In (GateEvaluated q) tr /\ passed q = true)
  /\ (forall path records, In (Archived path records) tr ->
       path = archive_of env
       /\ (exists since, In (Fetched since 500 records) tr)
       /\ read_file path (bronze w') = Some records)
  /\ (forall e, In (Failed OpUpsert e) tr ->
       exists records, In (Archived (archive_of env) records) tr))).
wp_run; (split; [intros s t H|split; [intros path records H|intros e' H]]);
  in_trace H.
all: try (eexists; split; [cbn [app In]; eauto 20|done]).
all: try (eexists; cbn [app In]; eauto 20; fail).
all: injection H as <- <-.
all: split; [reflexivity|].
all: split; [eexists; cbn [app In]; eauto 20|].
all: cbn [bronze on_db on_bronze id]; apply read_write_file.
Qed.

(** Once the records are fetched and the archive write is not refused, the
    archive object is written and holds them when the run ends, whatever
    happens to the merge. *)
Lemma main_archive_durable w :
wp (main fromisoformat py_float env) w (fun _ w' tr =>
  forall since records, In (Fetched since 500 records) tr ->
  env_fault env OpWriteBronze = None ->
  In (Archived (archive_of env) records) tr
  /\ read_file (archive_of env) (bronze w') = Some records).
Proof.
wp_run; intros since records H Hb; in_trace H; try congruence.
all: injection H as <- <-.
all: split; [cbn [app In]; auto 20|].
all: cbn [bronze on_db on_bronze id]; apply read_write_file.
Qed.

(** A merge that stops in the row loop: nothing is sent to the store and
    the run raises the exception of the loop. *)
Lemma main_rows_failure w :
wp (main fromisoformat py_float env) w (fun r w' tr =>
  forall since records e, In (Fetched since 500 records) tr ->
  env_fault env OpWriteBronze = None ->
  build_rows fromisoformat py_float records = Raise e ->
  r = Raise e /\ staging w' = staging w
  /\ forall rows, ~ In (Upserted rows) tr).
Proof.
wp_run; intros since records e' H Hb Hrows; in_trace H; try congruence.
all: injection H as <- <-.
all: try (exfalso; cbn [build_rows] in Hrows; congruence).
all: assert (e' = e) as -> by congruence.
all: split; [reflexivity|].
all: split; [unfold staging; cbn [id db bronze on_db on_bronze];
             by autorewrite with store|].
all: intros rows H'; in_trace H'.
Qed.

End Order.

(** C4.  The side effects of a run are strictly ordered: in the trace of
    every run the archive write (stage 1) comes before any staging upsert
    (stage 2), the upsert before the gate evaluation (stage 3) and the gate
    before any watermark write (stage 4); an upsert or a gate evaluation
    happens only after the archive write, a watermark write only after a
    gate that passed.  The archive object a run has written holds the whole
    fetched payload when the run ends, however it ends: once the records
    are fetched and the archive write is not refused, the object is written
    and holds them, so a merge that fails, in the store or before any
    statement is sent (a record without a field, a timestamp or an amount
    that cannot be read), finds it written; in the second case the run
    raises the exception of the merge and staging is what it was. *)
Theorem side_effects_strictly_ordered
    (fromisoformat : string -> option datetime)
    (py_float : json -> result Z) (env : Env) (w : World) :
  let o := main fromisoformat py_float env w in
  (forall m n, (m < n)%nat -> precedes m n (trace o))
  /\ (occurs 2 (trace o) -> occurs 1 (trace o))
  /\ (occurs 3 (trace o) -> occurs 1 (trace o))
  /\ (forall s t, In (WatermarkSet s t) (trace o) ->
        exists q, In (GateEvaluated q) (trace o) /\ passed q = true)
  /\ (forall path records, In (Archived path records) (trace o) ->
        path = archive_of env
        /\ (exists since, In (Fetched since 500 records) (trace o))
        /\ read_file path (bronze (final o)) = Some records)
  /\ (forall e, In (Failed OpUpsert e) (trace o) ->
        exists records, In (Archived (archive_of env) records) (trace o))
  /\ (forall since records, In (Fetched since 500 records) (trace o) ->
        env_fault env OpWriteBronze = None ->
        In (Archived (archive_of env) records) (trace o)
        /\ read_file (archive_of env) (bronze (final o)) = Some records)
  /\ (forall since records e, In (Fetched since 500 records) (trace o) ->
        env_fault env OpWriteBronze = None ->
        build_rows fromisoformat py_float records = Raise e ->
        res o = Raise e /\ staging (final o) = staging w
        /\ forall rows, ~ In (Upserted rows) (trace o)).
Proof.
  cbv zeta.
  pose proof (main_archive_durable fromisoformat py_float env w) as Hdur.
  pose proof (main_rows_failure fromisoformat py_float env w) as Hloop.
  pose proof (main_stages fromisoformat py_float env w) as Hst.
  pose proof (main_advance_and_archive fromisoformat py_float env w)
    as (Hadv & Harch & Hmerge).
  split; [apply stages_precedes, main_stages_sorted|].
  rewrite !occurs_stages. cbn [In] in Hst.
  split; [|split; [|split; [exact Hadv|split; [exact Harch|
    split; [exact Hmerge|split; [exact Hdur|exact Hloop]]]]]].
  all: repeat (destruct Hst as [<-|Hst]; [cbn [In]; intuition lia|]); done.
Qed.

(** ** The exception handler *)

(** C7.  When the [try] body of [main] raises [e], [main] raises that same
    [e]: the handler runs once after the body, makes one attempt to record
    the run as failed with the text of [e] (the update of the run row, or
    the exception that attempt raised, which is dropped), logs the failure
    and re-raises [e]. *)
Theorem exception_recorded_once_and_reraised
    (fromisoformat : string -> option datetime)
    (py_float : json -> result Z) (env : Env) (w : World)
    (e : exn) :
  env_fault env OpConnect = None ->
  res (steps fromisoformat py_float env w) = Raise e ->
  let s := steps fromisoformat py_float env w in
  let o := main fromisoformat py_float env w in
  res o = Raise e
  /\ trace o
     = [Printed (pipeline_start pipeline_name (env_run_id env)); Connected]
       ++ trace s
       ++ [failure_record env e;
           Printed (pipeline_failed pipeline_name (env_run_id env) (str e));
           Closed]
  /\ final o
     = match env_fault env (OpFinishRun "failed") with
       | Some _ => final s
       | None =>
           on_db (sql_finish_run (env_run_id env) "failed" None
                    (Some (str e)) (env_now env (OpFinishRun "failed")))
             (final s)
       end.
Proof.
  intros Hc Hs. cbv zeta.
  unfold main, get_db_conn, call, try_finally, try_except, on_exception,
    finish_pipeline_run, call, log_event, raise, close, failure_record,
    mbind, mret, M_bind, M_ret.
  rewrite Hc. cbn. rewrite Hs.
  destruct (env_fault env (OpFinishRun "failed")); cbn;
    rewrite <- ?app_assoc; done.
Qed.

Lemma exception_recorded_once_and_reraised_witness :
  res (main fromisoformat_utc float_exact Scenario.store_down Scenario.fresh)
  = Raise (Exn "OperationalError" "connection lost")
  /\ final (main fromisoformat_utc float_exact
      Scenario.store_down Scenario.fresh)
     = final (steps fromisoformat_utc float_exact
         Scenario.store_down Scenario.fresh).
Proof.
  destruct (exception_recorded_once_and_reraised fromisoformat_utc float_exact
              Scenario.store_down Scenario.fresh
              (Exn "OperationalError" "connection lost"))
    as (Hres & _ & Hfinal).
  - reflexivity.
  - vm_compute. reflexivity.
  - split; [exact Hres|exact Hfinal].
Defined.

(** ** The gate and the watermark *)

Section Gate.
Variable fromisoformat : string -> option datetime.
Variable py_float : json -> result Z.
Variable env : Env.

Lemma main_gate_failure w :
wp (main fromisoformat py_float env) w (fun r w' tr =>
  forall q, In (GateEvaluated q) tr -> passed q = false ->
  let msg := "Data quality checks failed: " +:+ join " | " (failures q) in
  (forall s t, ~ In (WatermarkSet s t) tr)
  /\ watermark w' = watermark w
  /\ r = Raise (RuntimeError msg)
  /\ In (failure_record env (RuntimeError msg)) tr
  /\ (env_fault env (OpFinishRun "failed") = None ->
        run_recorded w' (env_run_id env) "failed" None (Some msg))).
Proof.
wp_run; intros q H Hp; in_trace H; injection H as <-;
  cbn [id db bronze on_db on_bronze] in *; autorewrite with store in *;
  try congruence.
all: cbv zeta; unfold failure_record.
all: repeat match goal with
     | Hf : env_fault env (OpFinishRun "failed") = _ |- _ => rewrite Hf
     end.
all: split; [intros s' t' H'; in_trace H'|].
all: split; [by store_simpl|].
all: split; [reflexivity|].
all: split; [cbn [app In]; auto 20|].
all: intros Hnone; try discriminate Hnone.
all: unfold run_recorded; cbn [db on_db on_bronze].
all: apply finish_run_recorded; autorewrite with store.
all: apply insert_run_present.
Qed.

End Gate.

(** C1.  In every run in which the gate is evaluated and reports failure,
    the watermark store is never written and the watermark read from it is
    what it was before the run; [main] raises the [RuntimeError] whose
    message is "Data quality checks failed: " followed by all failure lines
    joined with " | "; the handler attempts to record the run as failed
    with that message, and when the store accepts the update the run row
    shows status failed and that message. *)
Theorem gate_failure_blocks_watermark
    (fromisoformat : string -> option datetime)
    (py_float : json -> result Z) (env : Env) (w : World)
    (q : QualityResult) :
  let o := main fromisoformat py_float env w in
  In (GateEvaluated q) (trace o) -> passed q = false ->
  let msg := "Data quality checks failed: " +:+ join " | " (failures q) in
  (forall s t, ~ In (WatermarkSet s t) (trace o))
  /\ watermark (final o) = watermark w
  /\ res o = Raise (RuntimeError msg)
  /\ In (failure_record env (RuntimeError msg)) (trace o)
  /\ (env_fault env (OpFinishRun "failed") = None ->
        run_recorded (final o) (env_run_id env) "failed" None (Some msg)).
Proof.
  intros o Hin Hp. exact (main_gate_failure fromisoformat py_float
      env w q Hin Hp).
Qed.

Lemma gate_failure_blocks_watermark_witness :
  res (main fromisoformat_utc float_exact Scenario.bad_run Scenario.fresh)
  = Raise (RuntimeError
      "Data quality checks failed: loan_amount_positive: 1 failing rows")
  /\ watermark (final (main fromisoformat_utc float_exact
      Scenario.bad_run Scenario.fresh))
     = watermark Scenario.fresh.
Proof.
  destruct (gate_failure_blocks_watermark fromisoformat_utc float_exact
      Scenario.bad_run
              Scenario.fresh
              {| passed := false;
                 failures := ["loan_amount_positive: 1 failing rows"] |})
    as (_ & Hw & Hr & _).
  - vm_compute. repeat (first [left; reflexivity | right]).
  - reflexivity.
  - split; [exact Hr|exact Hw].
Defined.

(** ** A run that fetches nothing *)

(** Membership of a given element in a trace known element by element. *)
Ltac in_list := cbn [app In]; repeat (first [left; reflexivity | right]).

Section EmptyFetch.
Variable fromisoformat : string -> option datetime.
Variable py_float : json -> result Z.
Variable env : Env.

Lemma main_empty_fetch w :
wp (main fromisoformat py_float env) w (fun r w' tr =>
  forall since, In (Fetched since 500 []) tr ->
  let q := Quality.run_staging_checks (staging w) (env_now env OpChecks) in
  staging w' = staging w
  /\ watermark w' = watermark w
  /\ (forall rows, ~ In (Upserted rows) tr)
  /\ (forall s t, ~ In (WatermarkSet s t) tr)
  /\ (env_fault env OpWriteBronze = None ->
      In (Archived (archive_of env) []) tr
      /\ read_file (archive_of env) (bronze w') = Some []
      /\ (env_fault env OpChecks = None ->
          In (GateEvaluated q) tr
          /\ (passed q = false ->
              let msg := "Data quality checks failed: "
                         +:+ join " | " (failures q) in
              r = Raise (RuntimeError msg)
              /\ (env_fault env (OpFinishRun "failed") = None ->
                  run_recorded w' (env_run_id env) "failed" None
                    (Some msg)))
          /\ (passed q = true ->
              env_fault env (OpFinishRun "success") = None ->
              r = Ok tt
              /\ run_recorded w' (env_run_id env) "success" (Some 0) None)))).
Proof.
wp_run; intros since H; in_trace H; clear H;
  cbn [id db bronze on_db on_bronze] in *; autorewrite with store in *;
  cbv zeta; unfold archive_of, staging.
all: split; [by store_simpl|].
all: split; [by store_simpl|].
all: split; [intros ? H'; in_trace H'|].
all: split; [intros ? ? H'; in_trace H'|].
all: intros Hb; try congruence.
all: split; [in_list|].
all: split; [cbn [db bronze on_db on_bronze]; apply read_write_file|].
all: intros Hc; try congruence.
all: split; [in_list|].
all: split;
  [intros Hpass;
   first [ congruence
         | split; [reflexivity|]; intros Hnone;
           first [ congruence
                 | unfold run_recorded; cbn [db on_db on_bronze];
                   apply finish_run_recorded; autorewrite with store;
                   apply insert_run_present ] ]|].
all: intros Hpass Hf; try congruence.
all: split; [reflexivity|].
all: unfold run_recorded; cbn [db on_db on_bronze].
all: apply finish_run_recorded; autorewrite with store.
all: apply insert_run_present.
Qed.

End EmptyFetch.

(** C2, as the code has it.  In every run in which the extraction client
    returns an empty result set, staging and the watermark are unchanged and
    neither the merge nor the watermark store writes anything; the archive
    step still runs and writes an empty object, and the gate is still
    evaluated, on the staging contents found; when the gate passes (and the
    run row can be updated) the run returns normally and is recorded as
    success with row count 0; when the gate fails [main] raises the
    [RuntimeError] of the gate and (when the run row can be updated) the
    run is recorded as failed with the message of that error. *)
Theorem empty_fetch_keeps_staging_and_watermark
    (fromisoformat : string -> option datetime)
    (py_float : json -> result Z) (env : Env) (w : World)
    (since : option datetime) :
  let o := main fromisoformat py_float env w in
  In (Fetched since 500 []) (trace o) ->
  let q := Quality.run_staging_checks (staging w) (env_now env OpChecks) in
  staging (final o) = staging w
  /\ watermark (final o) = watermark w
  /\ (forall rows, ~ In (Upserted rows) (trace o))
  /\ (forall s t, ~ In (WatermarkSet s t) (trace o))
  /\ (env_fault env OpWriteBronze = None ->
      In (Archived (archive_of env) []) (trace o)
      /\ read_file (archive_of env) (bronze (final o)) = Some []
      /\ (env_fault env OpChecks = None ->
          In (GateEvaluated q) (trace o)
          /\ (passed q = false ->
              let msg := "Data quality checks failed: "
                         +:+ join " | " (failures q) in
              res o = Raise (RuntimeError msg)
              /\ (env_fault env (OpFinishRun "failed") = None ->
                  run_recorded (final o) (env_run_id env) "failed" None
                    (Some msg)))
          /\ (passed q = true ->
              env_fault env (OpFinishRun "success") = None ->
              res o = Ok tt
              /\ run_recorded (final o) (env_run_id env) "success"
                   (Some 0) None))).
Proof.
  intros o Hin. exact (main_empty_fetch fromisoformat py_float env w since Hin).
Qed.

Lemma empty_fetch_keeps_staging_and_watermark_witness :
  In (Fetched None 500 [])
     (trace (main fromisoformat_utc float_exact (Scenario.calm "run-1" [])
               Scenario.fresh))
  /\ staging (final (main fromisoformat_utc float_exact
      (Scenario.calm "run-1" [])
                       Scenario.fresh))
     = staging Scenario.fresh.
Proof.
  assert (Hin : In (Fetched None 500 [])
                  (trace (main fromisoformat_utc float_exact
                      (Scenario.calm "run-1" [])
                            Scenario.fresh))).
  { vm_compute. repeat (first [left; reflexivity | right]). }
  split; [exact Hin|].
  apply (empty_fetch_keeps_staging_and_watermark fromisoformat_utc float_exact
           (Scenario.calm "run-1" []) Scenario.fresh None Hin).
Defined.

(** The run after a run that merged a row with [loan_amount = 0]: the
    source returns nothing, and yet the archive is written, the gate is
    evaluated and fails on the stale row, [main] raises and the run is
    recorded as failed. *)
Lemma empty_fetch_fails_on_stale_row :
  let o := main fromisoformat_utc float_exact
      Scenario.empty_run Scenario.after_bad_run in
  In (Fetched None 500 []) (trace o)
  /\ res o
     = Raise (RuntimeError
         "Data quality checks failed: loan_amount_positive: 1 failing rows")
  /\ In (Archived (archive_of Scenario.empty_run) []) (trace o)
  /\ In (GateEvaluated
           {| passed := false;
              failures := ["loan_amount_positive: 1 failing rows"] |})
        (trace o)
  /\ map (fun r => (Db.run_id r, Db.status r))
         (Db.pipeline_runs (db (final o)))
     = [("run-1", "failed"); ("run-2", "failed")].
Proof.
  cbv zeta. repeat split; vm_compute;
    first [reflexivity | repeat (first [left; reflexivity | right])].
Qed.

(** ** The new watermark *)

Lemma py_max_fold (rest : list datetime) :
forall x,
  let m := fold_left (fun m y => if dt_ltb m y then y else m) rest x in
  In m (x :: rest) /\ dt_le x m /\ Forall (fun t => dt_le t m) rest.
Proof.
induction rest as [|y rest IH]; intros x; cbn [fold_left].
- cbv zeta. unfold dt_le. repeat split; [by left|lia|constructor].
- specialize (IH (if dt_ltb x y then y else x)). cbv zeta in IH |- *.
  destruct IH as (Hin & Hle & Hall).
  assert (Hxy : dt_le x (if dt_ltb x y then y else x)
                /\ dt_le y (if dt_ltb x y then y else x)).
  { unfold dt_ltb, dt_le. destruct (Z.ltb_spec0 (to_micros x) (to_micros y));
      lia. }
  destruct Hxy as [Hx Hy]. unfold dt_le in *. repeat split.
  + destruct Hin as [Hin|Hin]; [|right; by right].
    destruct (dt_ltb x y); [right; left|left]; done.
  + lia.
  + constructor; [lia|done].
Qed.

Lemma py_max_greatest (ts : list datetime) (m : datetime) :
py_max ts = Ok m -> is_greatest m ts.
Proof.
destruct ts as [|x rest]; [done|]. intros [= <-].
destruct (py_max_fold rest x) as (Hin & Hle & Hall).
split; [done|]. by constructor.
Qed.


Section NewWatermark.
Variable fromisoformat : string -> option datetime.
Variable py_float : json -> result Z.
Variable env : Env.

Lemma compute_new_watermark_cons r l o :
compute_new_watermark fromisoformat (r :: l) = Ok o ->
exists ts m, submitted_ats fromisoformat (r :: l) = Ok ts
             /\ py_max ts = Ok m /\ o = Some m.
Proof.
unfold compute_new_watermark.
destruct (submitted_ats fromisoformat (r :: l)) as [ts|]; [|done].
cbn. destruct (py_max ts) as [m|] eqn:Hmax; [|done]. cbn.
intros [= <-]. exists ts, m. done.
Qed.


End NewWatermark.




(** * Further properties of the code *)

(** ** The watermark store and the run recorder *)

Lemma find_app {A} (f : A -> bool) (l l' : list A) :
  List.find f (l ++ l')
  = match List.find f l with Some x => Some x | None => List.find f l' end.
Proof.
  induction l as [|x l IH]; simpl; [done|]. destruct (f x); done.
Qed.

Lemma lookup_watermark_ensure_any s s' now d :
  lookup_watermark (sql_ensure_state s now d) s' = lookup_watermark d s'.
Proof.
  destruct (String.eqb s s') eqn:E.
  - apply String.eqb_eq in E as <-. apply lookup_watermark_ensure.
  - unfold sql_ensure_state, lookup_watermark. cbv zeta.
    destruct (existsb _ (Db.ingestion_state d)); [done|].
    cbn [with_ingestion_state Db.ingestion_state]. rewrite find_app.
    destruct (List.find _ (Db.ingestion_state d)); [done|].
    cbn. by rewrite E.
Qed.

Lemma ensure_twice s now now' d :
  sql_ensure_state s now' (sql_ensure_state s now d) = sql_ensure_state s now d.
Proof.
  unfold sql_ensure_state at 1. cbv zeta. by rewrite ensure_present.
Qed.

(** X1.  [ensure_ingestion_state] is an insert-if-absent: it leaves what
    [get_watermark] reads, for every source, the staging relation and the
    run rows as they are; afterwards the source has a row; and a second call,
    at any later time, changes nothing. *)
Theorem ensure_ingestion_state_idempotent
    (env env' : Env) (s : string) (w : World) :
  env_fault env OpEnsureState = None ->
  env_fault env' OpEnsureState = None ->
  let w1 := final (ensure_ingestion_state env s w) in
  (forall s', lookup_watermark (db w1) s' = lookup_watermark (db w) s')
  /\ existsb (fun r => String.eqb (Db.source_name r) s)
       (Db.ingestion_state (db w1)) = true
  /\ staging w1 = staging w
  /\ Db.pipeline_runs (db w1) = Db.pipeline_runs (db w)
  /\ final (ensure_ingestion_state env' s w1) = w1.
Proof.
  intros Hf Hf'. unfold ensure_ingestion_state, call. rewrite Hf. cbn.
  rewrite Hf'. cbn. unfold staging. cbn.
  repeat split.
  - intros s'. apply lookup_watermark_ensure_any.
  - apply ensure_present.
  - apply ensure_loan_applications.
  - apply ensure_pipeline_runs.
  - unfold on_db. cbn. by rewrite ensure_twice.
Qed.

Lemma ensure_ingestion_state_idempotent_witness :
  final (ensure_ingestion_state (Scenario.calm "run-2" []) source_name
           (final (ensure_ingestion_state (Scenario.calm "run-1" [])
                     source_name Scenario.fresh)))
  = final (ensure_ingestion_state (Scenario.calm "run-1" []) source_name
             Scenario.fresh).
Proof.
  destruct (ensure_ingestion_state_idempotent (Scenario.calm "run-1" [])
              (Scenario.calm "run-2" []) source_name Scenario.fresh)
    as (_ & _ & _ & _ & H); [reflexivity|reflexivity|exact H].
Defined.

Lemma get_watermark_res env s w :
  env_fault env OpGetWatermark = None ->
  res (get_watermark env s w) = Ok (lookup_watermark (db w) s).
Proof.
  intros Hf. unfold get_watermark, get_world, call, mbind, mret, M_bind, M_ret.
  cbn. rewrite Hf. reflexivity.
Qed.

Lemma lookup_watermark_set_absent s t now d :
  existsb (fun r => String.eqb (Db.source_name r) s) (Db.ingestion_state d)
  = false ->
  lookup_watermark (sql_set_watermark s t now d) s = None.
Proof.
  unfold sql_set_watermark, lookup_watermark. cbn.
  induction (Db.ingestion_state d) as [|r l IH]; simpl; [done|].
  destruct (String.eqb (Db.source_name r) s) eqn:E; simpl; [done|].
  rewrite E. exact IH.
Qed.

Lemma lookup_watermark_set_other s s' t now d :
  s' <> s ->
  lookup_watermark (sql_set_watermark s t now d) s' = lookup_watermark d s'.
Proof.
  intros Hne. unfold sql_set_watermark, lookup_watermark. cbn.
  induction (Db.ingestion_state d) as [|r l IH]; simpl; [done|].
  destruct (String.eqb (Db.source_name r) s) eqn:E; simpl.
  - apply String.eqb_eq in E. rewrite E.
    assert (E' : String.eqb s s' = false) by (apply String.eqb_neq; congruence).
    rewrite E'. destruct (List.find _ (map _ l)), (List.find _ l); done.
  - destruct (String.eqb (Db.source_name r) s'); [done|].
    destruct (List.find _ (map _ l)), (List.find _ l); done.
Qed.

(** X2.  After [set_watermark] for a source, [get_watermark] returns the
    value written when the source has a row, and still nothing when it has
    none: the update creates no row.  What is read for every other source
    is unchanged. *)
Theorem set_watermark_then_get
    (env : Env) (s : string) (t : datetime) (w : World) :
  env_fault env OpSetWatermark = None ->
  env_fault env OpGetWatermark = None ->
  let w1 := final (set_watermark env s t w) in
  res (get_watermark env s w1)
  = Ok (if existsb (fun r => String.eqb (Db.source_name r) s)
             (Db.ingestion_state (db w))
        then Some t else None)
  /\ (forall s', s' <> s ->
        res (get_watermark env s' w1) = res (get_watermark env s' w))
  /\ map Db.source_name (Db.ingestion_state (db w1))
     = map Db.source_name (Db.ingestion_state (db w)).
Proof.
  intros Hs Hg. cbv zeta. unfold set_watermark, call. rewrite Hs.
  cbn [final on_db db]. rewrite !get_watermark_res by done.
  repeat split.
  - f_equal. destruct (existsb _ _) eqn:E.
    + by apply lookup_watermark_set.
    + by apply lookup_watermark_set_absent.
  - intros s' Hne. rewrite !get_watermark_res by done. f_equal.
    by apply lookup_watermark_set_other.
  - cbn. rewrite map_map. apply map_ext. intros r.
    by destruct (String.eqb _ _).
Qed.

Lemma set_watermark_then_get_witness :
  res (get_watermark (Scenario.calm "run-1" []) source_name
         (final (set_watermark (Scenario.calm "run-1" []) source_name
                   Scenario.noon Scenario.fresh)))
  = Ok None.
Proof.
  destruct (set_watermark_then_get (Scenario.calm "run-1" []) source_name
              Scenario.noon Scenario.fresh) as [H _];
    [reflexivity|reflexivity|exact H].
Defined.

(** X3.  [finish_pipeline_run] adds and removes no run row; it leaves every
    row of another run as it is, and gives each row of the run the status,
    row count and error message passed, keeping its name and start time. *)
Theorem finish_pipeline_run_touches_one_run
    (env : Env) (run_id status : string) (row_count : option Z)
    (error_message : option string) (w : World) :
  env_fault env (OpFinishRun status) = None ->
  let w1 := final (finish_pipeline_run env run_id status row_count
                     error_message w) in
  map Db.run_id (Db.pipeline_runs (db w1))
  = map Db.run_id (Db.pipeline_runs (db w))
  /\ (forall i r, Db.pipeline_runs (db w) !! i = Some r ->
        Db.run_id r <> run_id -> Db.pipeline_runs (db w1) !! i = Some r)
  /\ (forall i r, Db.pipeline_runs (db w) !! i = Some r ->
        Db.run_id r = run_id ->
        exists r', Db.pipeline_runs (db w1) !! i = Some r'
          /\ Db.status r' = status /\ Db.row_count r' = row_count
          /\ Db.error_message r' = error_message
          /\ Db.finished_at r' = Some (env_now env (OpFinishRun status))
          /\ Db.pipeline_name r' = Db.pipeline_name r
          /\ Db.started_at r' = Db.started_at r)
  /\ staging w1 = staging w
  /\ (forall s, lookup_watermark (db w1) s = lookup_watermark (db w) s).
Proof.
  intros Hf. cbv zeta. unfold finish_pipeline_run, call. rewrite Hf.
  unfold staging. cbn. repeat split.
  - rewrite map_map. apply map_ext. intros r. by destruct (String.eqb _ _).
  - intros i r Hi Hne. rewrite list_lookup_fmap, Hi. cbn.
    apply String.eqb_neq in Hne. by rewrite Hne.
  - intros i r Hi He. rewrite list_lookup_fmap, Hi. cbn.
    apply String.eqb_eq in He. rewrite He. eexists. repeat split.
Qed.

Lemma finish_pipeline_run_touches_one_run_witness :
  staging (final (finish_pipeline_run (Scenario.calm "run-1" []) "run-9"
                    "failed" None (Some "boom") Scenario.after_bad_run))
  = staging Scenario.after_bad_run.
Proof.
  destruct (finish_pipeline_run_touches_one_run (Scenario.calm "run-1" [])
              "run-9" "failed" None (Some "boom") Scenario.after_bad_run)
    as (_ & _ & _ & H & _); [reflexivity|exact H].
Defined.

(** ** More on the staging merge *)

Section MergeMore.
Variable fromisoformat : string -> option datetime.
Variable py_float : json -> result Z.
Variable env : Env.

Lemma build_rows_malformed records r e0 :
In r records ->
build_row fromisoformat py_float r = Raise e0 ->
exists e, build_rows fromisoformat py_float records = Raise e.
Proof.
induction records as [|r0 records IH]; intros Hin Hbad; [done|].
cbn [build_rows].
destruct (build_row fromisoformat py_float r0) as [row|e1] eqn:E.
- destruct Hin as [->|Hin]; [congruence|].
  destruct (IH Hin Hbad) as [e He]. rewrite He. cbn. eauto.
- cbn. eauto.
Qed.

Lemma upsert_row_length t row :
(length t <= length (upsert_row t row) <= S (length t))%nat.
Proof.
unfold upsert_row. destruct (existsb _ _).
- rewrite length_map. lia.
- rewrite length_app. cbn. lia.
Qed.

Lemma executemany_length rows t :
(length t <= length (executemany rows t) <= length t + length rows)%nat.
Proof.
revert t. induction rows as [|row rows IH]; intros t; cbn; [lia|].
pose proof (IH (upsert_row t row)). pose proof (upsert_row_length t row).
fold (executemany rows (upsert_row t row)). lia.
Qed.

Lemma upsert_row_keys t row :
exists k, map Db.application_id (upsert_row t row)
          = map Db.application_id t ++ k.
Proof.
destruct (existsb (conflicts row) t) eqn:E.
- rewrite upsert_row_present by done. exists [].
  by rewrite overwrite_keys, app_nil_r.
- rewrite upsert_row_absent by done. eexists. apply map_app.
Qed.

Lemma executemany_keys rows t :
exists k, map Db.application_id (executemany rows t)
          = map Db.application_id t ++ k.
Proof.
revert t. induction rows as [|row rows IH]; intros t; cbn.
- exists []. by rewrite app_nil_r.
- destruct (IH (upsert_row t row)) as [k Hk].
  destruct (upsert_row_keys t row) as [k' Hk'].
  exists (k' ++ k). fold (executemany rows (upsert_row t row)).
  by rewrite Hk, Hk', app_assoc.
Qed.

Lemma conflicts_resolve rows r x :
conflicts r (resolve rows x) = conflicts r x.
Proof. unfold conflicts. by rewrite resolve_key. Qed.

(** What a batch leaves of a row it touches is the last row of the batch
  with that key. *)
Lemma resolve_last rows x :
(exists r, In r rows /\ conflicts r x = true) ->
exists before after,
  rows = before ++ resolve rows x :: after
  /\ Forall (fun r => conflicts r (resolve rows x) = false) after.
Proof.
induction rows as [|r rows IH] using rev_ind; intros [r0 [Hin Hc]]; [done|].
rewrite resolve_snoc. unfold overwrite.
destruct (conflicts r (resolve rows x)) eqn:E.
- exists rows, []. split; [done|constructor].
- apply in_app_or in Hin as [Hin|[<-|[]]].
  + destruct IH as (before & after & Hrows & Hall); [eauto|].
    exists before, (after ++ [r]). split.
    * rewrite Hrows at 1. by rewrite <- app_assoc.
    * apply Forall_app. split; [done|]. by constructor.
  + rewrite conflicts_resolve in E. congruence.
Qed.

End MergeMore.

(** X4.  A batch with one record whose row cannot be built (its
    [submitted_at] does not parse, a field is missing, an amount is not a
    number) is refused as a whole: [upsert_staging] raises before any
    statement is sent, so nothing of the batch is stored, whatever the
    other records are. *)
Theorem upsert_staging_rejects_malformed
    (fromisoformat : string -> option datetime)
    (py_float : json -> result Z) (env : Env)
    (records : list RawRecord) (r : RawRecord) (e0 : exn) (w : World) :
  In r records ->
  build_row fromisoformat py_float r = Raise e0 ->
  exists e,
    upsert_staging fromisoformat py_float env records w
    = {| res := Raise e; final := w; trace := [] |}.
Proof.
  intros Hin Hbad.
  destruct (build_rows_malformed fromisoformat py_float records r e0 Hin Hbad)
    as [e He].
  exists e. destruct records as [|r0 records]; [done|].
  unfold upsert_staging, lift, mbind, M_bind. rewrite He. reflexivity.
Qed.

Lemma upsert_staging_rejects_malformed_witness :
  exists e,
    upsert_staging fromisoformat_utc float_exact (Scenario.calm "run-1" [])
      Scenario2.malformed Scenario.fresh
    = {| res := Raise e; final := Scenario.fresh; trace := [] |}.
Proof.
  apply (upsert_staging_rejects_malformed fromisoformat_utc float_exact
           (Scenario.calm "run-1" []) Scenario2.malformed
           (Scenario.loan "a-2" "yesterday" 2000)
           (ValueError "Invalid isoformat string") Scenario.fresh).
  - right. left. reflexivity.
  - reflexivity.
Defined.

(** X5.  The count [upsert_staging] returns is the number of records it
    was given, duplicates and updates of stored rows included; staging
    never shrinks and grows by at most that number of rows. *)
Theorem upsert_staging_count
    (fromisoformat : string -> option datetime)
    (py_float : json -> result Z) (env : Env)
    (records : list RawRecord) (w : World) (n : Z) :
  res (upsert_staging fromisoformat py_float env records w) = Ok n ->
  let w1 := final (upsert_staging fromisoformat py_float env records w) in
  n = len records
  /\ (length (staging w) <= length (staging w1)
      <= length (staging w) + length records)%nat.
Proof.
  intros H.
  destruct (upsert_staging_ok fromisoformat py_float env records w n H)
    as [(-> & -> & ->)|(rows & _ & Hrows & _ & -> & ->)].
  - split; [reflexivity|]. cbn. lia.
  - pose proof (build_rows_length fromisoformat py_float records rows Hrows)
      as Hlen.
    split; [unfold len; by rewrite Hlen|].
    unfold staging. cbn. rewrite <- Hlen. apply executemany_length.
Qed.

Lemma upsert_staging_count_witness :
  res (upsert_staging fromisoformat_utc float_exact (Scenario.calm "run-1" [])
         Scenario.three_loans Scenario.fresh) = Ok 3
  /\ 3 = len Scenario.three_loans.
Proof.
  split; [reflexivity|].
  apply (upsert_staging_count fromisoformat_utc float_exact
      (Scenario.calm "run-1" [])
           Scenario.three_loans Scenario.fresh 3).
  reflexivity.
Defined.

(** X6.  Within one batch the last record of a key wins: a stored row
    whose key occurs in the batch is the row built from the last record of
    the batch with that key. *)
Theorem executemany_last_record_wins
    (fromisoformat : string -> option datetime)
    (py_float : json -> result Z)
    (records : list RawRecord) (rows t : list StagingRow) (x : StagingRow) :
  build_rows fromisoformat py_float records = Ok rows ->
  In x (executemany rows t) ->
  (exists r, In r rows /\ conflicts r x = true) ->
  exists before after,
    rows = before ++ x :: after
    /\ Forall (fun r => conflicts r x = false) after.
Proof.
  intros Hrows Hin Hex.
  pose proof (executemany_resolved rows t x Hin) as Hres.
  destruct (resolve_last rows x Hex) as (before & after & Heq & Hall).
  rewrite Hres in Heq, Hall. eauto.
Qed.

Lemma executemany_last_record_wins_witness :
  exists before after,
    Scenario2.three_rows = before ++ Scenario2.third_row :: after
    /\ Forall (fun r => conflicts r Scenario2.third_row = false) after.
Proof.
  apply (executemany_last_record_wins fromisoformat_utc float_exact
      Scenario.three_loans
           Scenario2.three_rows [] Scenario2.third_row).
  - reflexivity.
  - vm_compute. left. reflexivity.
  - exists Scenario2.third_row. split; [|reflexivity].
    vm_compute. right. right. left. reflexivity.
Defined.

(** ** More on the new watermark *)

Section WatermarkMore.
Variable fromisoformat : string -> option datetime.

Lemma submitted_ats_malformed records r e0 :
In r records ->
parse_submitted_at fromisoformat r = Raise e0 ->
exists e, submitted_ats fromisoformat records = Raise e.
Proof.
induction records as [|r0 records IH]; intros Hin Hbad; [done|].
cbn [submitted_ats].
destruct (parse_submitted_at fromisoformat r0) as [t|e1] eqn:E.
- destruct Hin as [->|Hin]; [congruence|].
  destruct (IH Hin Hbad) as [e He]. rewrite He. cbn. eauto.
- cbn. eauto.
Qed.

Lemma submitted_ats_in records ts :
submitted_ats fromisoformat records = Ok ts ->
forall t, In t ts <->
  exists r, In r records /\ parse_submitted_at fromisoformat r = Ok t.
Proof.
revert ts. induction records as [|r0 records IH]; intros ts H t.
- injection H as <-. split; [done|]. by intros [? [? ?]].
- cbn [submitted_ats] in H.
  destruct (parse_submitted_at fromisoformat r0) as [t0|] eqn:E; [|done].
  cbn in H. destruct (submitted_ats fromisoformat records) as [ts0|];
    [|done].
  cbn in H. injection H as <-. specialize (IH ts0 eq_refl t). split.
  + intros [<-|Hin]; [exists r0; split; [by left|done]|].
    apply IH in Hin as [r [Hr Hp]]. exists r. split; [by right|done].
  + intros [r [[<-|Hr] Hp]]; [left; congruence|].
    right. apply IH. eauto.
Qed.

End WatermarkMore.

(** X8.  [compute_new_watermark] returns no watermark exactly for an empty
    list; it raises as soon as one record's [submitted_at] does not parse
    (or is missing, or is not a string);
    and the watermark it returns is, as an instant, the same for two lists
    holding the same records in any order and multiplicity. *)
Theorem compute_new_watermark_cases
    (fromisoformat : string -> option datetime) (records : list RawRecord) :
  (compute_new_watermark fromisoformat records = Ok None <-> records = [])
  /\ (forall r e0, In r records ->
        parse_submitted_at fromisoformat r = Raise e0 ->
        exists e, compute_new_watermark fromisoformat records = Raise e)
  /\ (forall records' m m',
        (forall r, In r records <-> In r records') ->
        compute_new_watermark fromisoformat records = Ok (Some m) ->
        compute_new_watermark fromisoformat records' = Ok (Some m') ->
        to_micros m = to_micros m').
Proof.
  split; [|split].
  - split; [|by intros ->]. destruct records as [|r l]; [done|].
    intros H. apply compute_new_watermark_cons in H as (? & ? & _ & _ & ?).
    done.
  - intros r e0 Hin Hbad. destruct records as [|r0 l]; [done|].
    destruct (submitted_ats_malformed fromisoformat (r0 :: l) r e0 Hin Hbad)
      as [e He].
    exists e. unfold compute_new_watermark. rewrite He. reflexivity.
  - intros records' m m' Hsame H H'.
    destruct records as [|r l]; [done|].
    destruct records' as [|r' l']; [done|].
    apply compute_new_watermark_cons in H as (ts & m0 & Hts & Hmax & [= ->]).
    apply compute_new_watermark_cons in H'
      as (ts' & m0' & Hts' & Hmax' & [= ->]).
    apply py_max_greatest in Hmax as [Hin Hall].
    apply py_max_greatest in Hmax' as [Hin' Hall'].
    rewrite List.Forall_forall in Hall, Hall'.
    assert (Hts_same : forall t, In t ts <-> In t ts').
    { intros t.
      rewrite (submitted_ats_in fromisoformat _ _ Hts),
              (submitted_ats_in fromisoformat _ _ Hts').
      split; intros [x [Hx Hp]]; exists x; split; try done; by apply Hsame. }
    apply Hts_same in Hin. apply Hts_same in Hin'.
    specialize (Hall _ Hin'). specialize (Hall' _ Hin).
    unfold dt_le in *. lia.
Qed.

(** ** More on the quality gate *)

Lemma count_rows_zero (where_ : StagingRow -> bool) (t : list StagingRow) :
  count_rows where_ t = 0%nat <-> Forall (fun x => where_ x = false) t.
Proof.
  unfold count_rows. induction t as [|x t IH]; simpl.
  - split; [constructor|done].
  - destruct (where_ x) eqn:E; simpl.
    + split; [done|]. intros H. inversion H; congruence.
    + rewrite IH. split; [by constructor|]. intros H. by inversion H.
Qed.

Lemma passed_iff_counts (t : list StagingRow) (now : datetime) :
  passed (Quality.run_staging_checks t now) = true <->
  count_rows null_required_fields t = 0%nat
  /\ count_rows loan_amount_positive t = 0%nat
  /\ count_rows annual_income_positive t = 0%nat
  /\ count_rows (submitted_at_future_guard now) t = 0%nat.
Proof.
  unfold Quality.run_staging_checks, checks, check_step.
  cbn [fold_left passed].
  destruct (count_rows null_required_fields t),
           (count_rows loan_amount_positive t),
           (count_rows annual_income_positive t),
           (count_rows (submitted_at_future_guard now) t);
    cbn; intuition congruence.
Qed.

Lemma row_valid_checks (now : datetime) (x : StagingRow) :
  row_valid now x <->
  null_required_fields x = false /\ loan_amount_positive x = false
  /\ annual_income_positive x = false
  /\ submitted_at_future_guard now x = false.
Proof.
  unfold row_valid, null_required_fields, loan_amount_positive,
    annual_income_positive, submitted_at_future_guard, Db.is_null.
  destruct x as [[?|] [?|] [t|] [a|] [?|] [?|] [i|]]; cbn;
    rewrite ?Z.leb_gt, ?Z.ltb_ge; split.
  all: try (intros (H & _); tauto).
  all: try (intros (H & _); discriminate H).
  - intros (_ & Ha & Hi & Ht).
    specialize (Ha a eq_refl). specialize (Hi i eq_refl).
    specialize (Ht t eq_refl). lia.
  - intros (_ & Ha & Hi & Ht). repeat split; try done.
    + intros v [= <-]. lia.
    + intros v [= <-]. lia.
    + intros v [= <-]. lia.
Qed.

Lemma gate_rows_valid (t : list StagingRow) (now : datetime) :
  passed (Quality.run_staging_checks t now) = true ->
  Forall (row_valid now) t.
Proof.
  rewrite passed_iff_counts, !count_rows_zero.
  rewrite !List.Forall_forall. setoid_rewrite row_valid_checks.
  intros (H1 & H2 & H3 & H4) x Hx. auto.
Qed.

(** X9.  The gate passes exactly when every row of staging has all seven
    required fields, a loan amount and an income above 0, and a
    [submitted_at] not more than five minutes after the time of the
    check. *)
Theorem gate_passes_iff_rows_valid (t : list StagingRow) (now : datetime) :
  passed (Quality.run_staging_checks t now) = true
  <-> Forall (row_valid now) t.
Proof.
  rewrite passed_iff_counts, !count_rows_zero.
  rewrite !List.Forall_forall. setoid_rewrite row_valid_checks.
  split.
  - intros (H1 & H2 & H3 & H4) x Hx. auto.
  - intros H. repeat split; intros x Hx;
      by destruct (H x Hx) as (? & ? & ? & ?).
Qed.

(** ** More on the orchestrator *)

Lemma finish_run_keeps run_id st rc err now d i r :
  Db.pipeline_runs d !! i = Some r -> Db.run_id r <> run_id ->
  Db.pipeline_runs (sql_finish_run run_id st rc err now d) !! i = Some r.
Proof.
  intros Hi Hne. cbn. rewrite list_lookup_fmap, Hi. cbn.
  apply String.eqb_neq in Hne. by rewrite Hne.
Qed.

Lemma insert_run_keeps run_id p now d i r :
  Db.pipeline_runs d !! i = Some r ->
  Db.pipeline_runs (sql_insert_run run_id p now d) !! i = Some r.
Proof. intros Hi. cbn. by apply lookup_app_l_Some. Qed.

Lemma read_write_file_other path path' content fs :
  path' <> path ->
  read_file path' (write_file path content fs) = read_file path' fs.
Proof.
  intros Hne. unfold read_file, write_file. cbn.
  rewrite bool_decide_eq_false_2 by congruence. f_equal.
  induction fs as [|[p c] fs IH]; cbn; [done|].
  destruct (bool_decide (p = path)) eqn:E; cbn.
  - apply bool_decide_eq_true in E. subst p.
    by rewrite bool_decide_eq_false_2 by congruence.
  - destruct (bool_decide (p = path')); [done|exact IH].
Qed.

(** The world after a sequence of writes, with the calls that write
    nothing removed. *)
Ltac store_norm :=
  unfold staging, watermark;
  cbn [id db bronze on_db on_bronze];
  autorewrite with store.

Section OrchestratorMore.
Variable fromisoformat : string -> option datetime.
Variable py_float : json -> result Z.
Variable env : Env.

Lemma main_watermark_frame w :
wp (main fromisoformat py_float env) w (fun r w' tr =>
  ((forall s t, ~ In (WatermarkSet s t) tr) -> watermark w' = watermark w)
  /\ (forall e s t, r = Raise e -> In (WatermarkSet s t) tr ->
        In (Failed (OpFinishRun "success") e) tr)).
Proof.
wp_run.
all: split;
  [ intros Hno;
    first [by store_norm | exfalso; eapply Hno; solve [in_list]]
  | intros e' s' t' Hr H;
    first [ discriminate Hr
          | in_trace H; injection Hr as <-; solve [in_list]
          | solve [in_trace H] ] ].
Qed.

Lemma main_success w :
wp (main fromisoformat py_float env) w (fun r w' tr =>
  r = Ok tt ->
  exists since records rows,
    In (Fetched since 500 records) tr
    /\ build_rows fromisoformat py_float records = Ok rows
    /\ staging w' = executemany rows (staging w)
    /\ passed (Quality.run_staging_checks (staging w')
                 (env_now env OpChecks)) = true
    /\ run_recorded w' (env_run_id env) "success" (Some (len records)) None
    /\ read_file (archive_of env) (bronze w') = Some records).
Proof.
wp_run; intros Hok; try discriminate Hok;
  cbn [id db bronze on_db on_bronze] in *; autorewrite with store in *.
all: do 3 eexists; split; [in_list|].
all: split; [first [eassumption|reflexivity]|].
all: split; [by store_norm|].
all: split; [by store_norm|].
all: split; [|cbn [db bronze on_db on_bronze]; apply read_write_file].
all: unfold run_recorded; cbn [db on_db on_bronze].
all: try match goal with
     | Hb : build_rows _ _ ?recs = Ok ?rows |- _ =>
         replace (len rows) with (len recs)
           by (unfold len; f_equal; symmetry;
               apply (build_rows_length fromisoformat py_float recs rows Hb))
     end.
all: apply finish_run_recorded; autorewrite with store.
all: apply insert_run_present.
Qed.

Lemma main_frame w :
wp (main fromisoformat py_float env) w (fun _ w' _ =>
  (forall i r, Db.pipeline_runs (db w) !! i = Some r ->
     Db.run_id r <> env_run_id env ->
     Db.pipeline_runs (db w') !! i = Some r)
  /\ (forall path, path <> archive_of env ->
        read_file path (bronze w') = read_file path (bronze w))
  /\ (exists k, map Db.application_id (staging w')
                = map Db.application_id (staging w) ++ k)).
Proof.
wp_run; (split; [intros i r0 Hi Hne|split; [intros path Hne|]]).
all: cbn [id db bronze on_db on_bronze].
all: try (repeat first [ apply finish_run_keeps; [|done]
                       | apply insert_run_keeps
                       | progress autorewrite with store ]; done).
all: try (first [reflexivity | by apply read_write_file_other]).
all: unfold staging; cbn [id db bronze on_db on_bronze];
     autorewrite with store.
all: first [ apply executemany_keys | exists []; by rewrite app_nil_r ].
Qed.

Lemma main_terminal w :
wp (main fromisoformat py_float env) w (fun r w' tr =>
  In (RunCreated (env_run_id env) pipeline_name) tr ->
  (forall st, env_fault env (OpFinishRun st) = None) ->
  exists st rc err,
    run_recorded w' (env_run_id env) st rc err
    /\ ((st = "success" /\ r = Ok tt)
        \/ (st = "failed" /\ rc = None
            /\ exists e, r = Raise e /\ err = Some (str e)))).
Proof.
wp_run; intros H Hf; in_trace H; clear H.
all: try (match goal with
          | Hx : env_fault env (OpFinishRun ?st) = Some _ |- _ =>
              rewrite Hf in Hx; discriminate Hx
          end).
all: do 3 eexists.
all: (split;
      [|first [left; split; reflexivity
              |right; split; [reflexivity|split; [reflexivity|]];
               eexists; split; reflexivity]]).
all: unfold run_recorded; cbn [id db on_db on_bronze].
all: apply finish_run_recorded; autorewrite with store.
all: apply insert_run_present.
Qed.

Lemma main_closes w :
wp (main fromisoformat py_float env) w (fun _ _ tr =>
  In Connected tr -> last tr = Some Closed).
Proof.
wp_run; intros H; in_trace H; reflexivity.
Qed.

End OrchestratorMore.

(** X10.  A run that raises leaves the watermark as it was, unless the call
    that failed is the last one, the update of the run row to success. *)
Theorem failing_run_keeps_watermark
    (fromisoformat : string -> option datetime)
    (py_float : json -> result Z) (env : Env) (w : World)
    (e : exn) :
  let o := main fromisoformat py_float env w in
  res o = Raise e ->
  (forall e', ~ In (Failed (OpFinishRun "success") e') (trace o)) ->
  (forall s t, ~ In (WatermarkSet s t) (trace o))
  /\ watermark (final o) = watermark w.
Proof.
  intros o Hr Hfin.
  destruct (main_watermark_frame fromisoformat py_float env w) as [Hframe Hset].
  assert (Hno : forall s t, ~ In (WatermarkSet s t) (trace o)).
  { intros s t Hin. exact (Hfin e (Hset e s t Hr Hin)). }
  split; [exact Hno|exact (Hframe Hno)].
Qed.

Lemma failing_run_keeps_watermark_witness :
  watermark (final (main fromisoformat_utc float_exact
      Scenario.store_down Scenario.fresh))
  = watermark Scenario.fresh.
Proof.
  apply (failing_run_keeps_watermark fromisoformat_utc float_exact
      Scenario.store_down
           Scenario.fresh (Exn "OperationalError" "connection lost")).
  - reflexivity.
  - intros e' H. vm_compute in H.
    repeat (destruct H as [H|H]; [discriminate H|]). exact H.
Defined.

(** The case left out above does occur: when only the update of the run
    row to success fails, [main] raises, the run is recorded as failed and
    the watermark has advanced. *)
Example watermark_advanced_by_a_failed_run :
  let o := main fromisoformat_utc float_exact
      Scenario2.finish_down Scenario.fresh in
  res o = Raise (Exn "OperationalError" "connection lost")
  /\ watermark Scenario.fresh = None
  /\ watermark (final o) = Some (mk_datetime 2026 2 24 10 1 0 0)
  /\ map (fun r => (Db.run_id r, Db.status r))
         (Db.pipeline_runs (db (final o)))
     = [("run-1", "failed")].
Proof. cbv zeta. repeat split; vm_compute; reflexivity. Qed.

(** X11.  When [main] returns normally: the archive object of the run
    holds the fetched records, staging is what the batch built from them
    makes of the staging found, that staging passes the gate, and the run
    row shows success with the number of fetched records. *)
Theorem successful_run_postcondition
    (fromisoformat : string -> option datetime)
    (py_float : json -> result Z) (env : Env) (w : World) :
  let o := main fromisoformat py_float env w in
  res o = Ok tt ->
  exists since records rows,
    In (Fetched since 500 records) (trace o)
    /\ build_rows fromisoformat py_float records = Ok rows
    /\ staging (final o) = executemany rows (staging w)
    /\ passed (Quality.run_staging_checks (staging (final o))
                 (env_now env OpChecks)) = true
    /\ run_recorded (final o) (env_run_id env) "success"
         (Some (len records)) None
    /\ read_file (archive_of env) (bronze (final o)) = Some records.
Proof.
  intros o Hok. exact (main_success fromisoformat py_float env w Hok).
Qed.

Lemma successful_run_postcondition_witness :
  exists since records rows,
    In (Fetched since 500 records)
       (trace (main fromisoformat_utc float_exact
                 (Scenario.calm "run-1" Scenario.three_loans) Scenario.fresh))
    /\ build_rows fromisoformat_utc float_exact records = Ok rows
    /\ staging (final (main fromisoformat_utc float_exact
                         (Scenario.calm "run-1" Scenario.three_loans)
                         Scenario.fresh))
       = executemany rows (staging Scenario.fresh).
Proof.
  destruct (successful_run_postcondition fromisoformat_utc float_exact
              (Scenario.calm "run-1" Scenario.three_loans) Scenario.fresh
              eq_refl)
    as (since & records & rows & Hin & Hrows & Hst & _).
  exists since, records, rows. split; [exact Hin|].
  split; [exact Hrows|exact Hst].
Defined.

(** X12.  A run touches the run rows of its own identifier only and the
    archive object of its own path only: every row of another run is found
    afterwards as it was, at its place, and every other archive object
    reads as before.  This holds however the run ends. *)
Theorem run_leaves_other_runs_and_archives
    (fromisoformat : string -> option datetime)
    (py_float : json -> result Z) (env : Env) (w : World) :
  let o := main fromisoformat py_float env w in
  (forall i r, Db.pipeline_runs (db w) !! i = Some r ->
     Db.run_id r <> env_run_id env ->
     Db.pipeline_runs (db (final o)) !! i = Some r)
  /\ (forall path, path <> archive_of env ->
        read_file path (bronze (final o)) = read_file path (bronze w)).
Proof.
  destruct (main_frame fromisoformat py_float env w) as (Hruns & Hfiles & _).
  split; [exact Hruns|exact Hfiles].
Qed.

(** X7.  No run deletes a staging row or changes its key: the keys stored
    before the run are, in the same order, the first keys stored after it,
    however the run ends. *)
Theorem run_never_deletes_staging_rows
    (fromisoformat : string -> option datetime)
    (py_float : json -> result Z) (env : Env) (w : World) :
  exists added,
    map Db.application_id (staging (final (main fromisoformat py_float env w)))
    = map Db.application_id (staging w) ++ added.
Proof.
  destruct (main_frame fromisoformat py_float env w) as (_ & _ & Hkeys).
  exact Hkeys.
Qed.

(** X13.  A run whose row was created and whose updates of that row the
    store accepts never stays in status running: the row shows success
    when [main] returns, and failed with the text of the exception and no
    row count when [main] raises. *)
Theorem created_run_reaches_terminal_status
    (fromisoformat : string -> option datetime)
    (py_float : json -> result Z) (env : Env) (w : World) :
  let o := main fromisoformat py_float env w in
  In (RunCreated (env_run_id env) pipeline_name) (trace o) ->
  (forall st, env_fault env (OpFinishRun st) = None) ->
  exists st rc err,
    run_recorded (final o) (env_run_id env) st rc err
    /\ ((st = "success" /\ res o = Ok tt)
        \/ (st = "failed" /\ rc = None
            /\ exists e, res o = Raise e /\ err = Some (str e))).
Proof.
  intros o Hin Hf. exact (main_terminal fromisoformat py_float env w Hin Hf).
Qed.

Lemma created_run_reaches_terminal_status_witness :
  exists st rc err,
    run_recorded (final (main fromisoformat_utc float_exact Scenario.bad_run
                           Scenario.fresh)) "run-1" st rc err
    /\ ((st = "success"
         /\ res (main fromisoformat_utc float_exact
             Scenario.bad_run Scenario.fresh)
            = Ok tt)
        \/ (st = "failed" /\ rc = None
            /\ exists e,
                 res (main fromisoformat_utc float_exact
                     Scenario.bad_run Scenario.fresh)
                 = Raise e /\ err = Some (str e))).
Proof.
  apply (created_run_reaches_terminal_status fromisoformat_utc float_exact
           Scenario.bad_run Scenario.fresh).
  - vm_compute. repeat (first [left; reflexivity | right]).
  - intros st. reflexivity.
Defined.

(** X14.  The connection is opened before the [try] block: when
    [get_db_conn] raises, [main] raises that exception having created no
    run row and recorded nothing.  A run that did connect ends by closing
    the connection, whatever happened in between. *)
Theorem connection_failure_and_close
    (fromisoformat : string -> option datetime)
    (py_float : json -> result Z) (env : Env) (w : World) :
  (forall e, env_fault env OpConnect = Some e ->
     main fromisoformat py_float env w
     = {| res := Raise e; final := w;
          trace := [Printed (pipeline_start pipeline_name (env_run_id env));
                    Failed OpConnect e] |})
  /\ (In Connected (trace (main fromisoformat py_float env w)) ->
      last (trace (main fromisoformat py_float env w)) = Some Closed).
Proof.
  split; [|exact (main_closes fromisoformat py_float env w)].
  intros e He.
  unfold main, get_db_conn, call, log_event, mbind, M_bind. cbn.
  rewrite He. reflexivity.
Qed.

(** ** More on the mock source *)

Lemma check_time_fields_inv h m s us :
  check_time_fields h m s us = Ok tt -> valid_time h m s us = true.
Proof.
  unfold check_time_fields, valid_time.
  destruct ((0 <=? h) && (h <=? 23)) eqn:Eh; cbn [negb]; [|done].
  destruct ((0 <=? m) && (m <=? 59)) eqn:Em; cbn [negb]; [|done].
  destruct ((0 <=? s) && (s <=? 59)) eqn:Es; cbn [negb]; [|done].
  destruct ((0 <=? us) && (us <=? 999999)) eqn:Eu; cbn [negb]; [|done].
  intros _. apply andb_true_iff in Eh as [? ?], Em as [? ?], Es as [? ?],
    Eu as [? ?].
  repeat match goal with Hx : _ = true |- _ => rewrite Hx; clear Hx end.
  reflexivity.
Qed.

Lemma replace_inv d h m s us d' :
  replace d h m s us = Ok d' ->
  valid_time (default (hour d) h) (default (minute d) m)
    (default (second d) s) (default (microsecond d) us) = true
  /\ d' = mk_datetime (year d) (month d) (day d)
            (default (hour d) h) (default (minute d) m)
            (default (second d) s) (default (microsecond d) us).
Proof.
  unfold replace.
  destruct (check_time_fields _ _ _ _) as [[]|] eqn:E; cbn; [|done].
  intros [= <-]. split; [by apply check_time_fields_inv|done].
Qed.

(** One step of the cursor, when it does not raise, leads to the start of
    the next minute. *)
Lemma advance_next_minute cursor c' :
  MockApi.advance cursor = Ok c' ->
  to_micros c' = to_micros (minute_of cursor) + 60000000
  /\ minute_of c' = c'.
Proof.
  unfold MockApi.advance.
  destruct (replace cursor None None (Some 0) (Some 0)) as [c1|] eqn:E1;
    cbn; [|done].
  apply replace_inv in E1 as [Hv ->]. cbn in Hv |- *.
  apply valid_time_spec in Hv.
  destruct (Z.ltb_spec0 (minute cursor) 59); intros H;
    apply replace_inv in H as [Hv' ->]; cbn in Hv' |- *;
    apply valid_time_spec in Hv';
    (split; [unfold to_micros, minute_of; cbn; lia|reflexivity]).
Qed.

Section Generate.
Variable uuid4 : nat -> string.

Lemma generate_spec (remaining : nat) :
forall now cursor acc records,
  MockApi.generate uuid4 remaining now cursor acc = Ok records ->
  exists new,
    records = acc ++ new
    /\ (length new <= remaining)%nat
    /\ forall i r, new !! i = Some r ->
         to_micros (MockApi.submitted_at r)
         = to_micros (minute_of cursor) + 60000000 * (Z.of_nat i + 1)
         /\ dt_lt (MockApi.submitted_at r) now.
Proof.
induction remaining as [|remaining IH]; intros now cursor acc records H.
- injection H as <-. exists []. rewrite app_nil_r.
  split; [done|split; [cbn; lia|]]. intros i r Hi. done.
- cbn [MockApi.generate] in H.
  destruct (MockApi.advance cursor) as [c'|] eqn:Ea; cbn in H; [|done].
  apply advance_next_minute in Ea as [Hstep Hfloor].
  destruct (dt_ltb c' now) eqn:Elt; cbn [negb] in H.
  + apply IH in H as (new & -> & Hlen & Hnew).
    exists (MockApi._fake_record uuid4 (2 * length acc) c' :: new).
    rewrite <- app_assoc. split; [done|split; [cbn; lia|]].
    intros [|i] r Hi; cbn in Hi.
    * injection Hi as <-. cbn. split; [lia|].
      unfold dt_lt. by apply Z.ltb_lt.
    * destruct (Hnew i r Hi) as [Ht Hn]. split; [|done].
      rewrite Ht, Hfloor, Hstep. lia.
  + injection H as <-. exists []. rewrite app_nil_r.
    split; [done|split; [cbn; lia|]]. intros i r Hi. done.
Qed.

End Generate.

(** X15.  With a [since], the handler returns at most [limit] records
    (50 when no limit is given); the record at index i is stamped i+1
    minutes after the start of the minute [since] lies in, so each record
    is strictly after [since], one minute after the one before it, and
    strictly before [now]. *)
Theorem loan_applications_after_since
    (fromisoformat : string -> option datetime) (uuid4 : nat -> string)
    (since : string) (start : datetime) (limit : option Z) (now : datetime)
    (records : list MockApi.LoanApplication) :
  fromisoformat (replace_Z since) = Some start ->
  0 <= second start <= 59 -> 0 <= microsecond start <= 999999 ->
  MockApi.loan_applications fromisoformat uuid4 (Some since) limit now
  = Ok records ->
  Z.of_nat (length records) <= default 50 limit
  /\ forall i r, records !! i = Some r ->
       to_micros (MockApi.submitted_at r)
       = to_micros (minute_of start) + 60000000 * (Z.of_nat i + 1)
       /\ dt_lt start (MockApi.submitted_at r)
       /\ dt_lt (MockApi.submitted_at r) now.
Proof.
  intros Hparse Hs Hus H. unfold MockApi.loan_applications in H.
  cbv zeta in H.
  destruct (negb ((1 <=? default 50 limit) && (default 50 limit <=? 500)))
    eqn:Hrange; [done|].
  unfold MockApi.window_start in H. rewrite Hparse in H. cbn in H.
  apply generate_spec in H as (new & -> & Hlen & Hnew). cbn [app].
  apply negb_false_iff, andb_true_iff in Hrange as [H1 _].
  apply Z.leb_le in H1. split; [lia|].
  intros i r Hi. destruct (Hnew i r Hi) as [Ht Hn].
  repeat split; try done.
  unfold dt_lt. rewrite Ht. unfold to_micros, minute_of. cbn. lia.
Qed.

Lemma loan_applications_after_since_witness :
  exists records,
    MockApi.loan_applications fromisoformat_utc Scenario.ids
      (Some "2026-02-24T10:00:30Z") (Some 3) Scenario.noon = Ok records
    /\ Z.of_nat (length records) <= 3.
Proof.
  eexists. split; [vm_compute; reflexivity|].
  eapply (loan_applications_after_since fromisoformat_utc Scenario.ids
            "2026-02-24T10:00:30Z" (mk_datetime 2026 2 24 10 0 30 0)
            (Some 3) Scenario.noon).
  - reflexivity.
  - cbn; lia.
  - cbn; lia.
  - vm_compute. reflexivity.
Defined.

(** X17.  With no [since], the record at index i is stamped i+1 minutes
    after the start of the hour [now] lies in, and strictly before [now]:
    the records never reach back before the current hour, and there are
    at most 59 of them. *)
Theorem loan_applications_default_window
    (fromisoformat : string -> option datetime) (uuid4 : nat -> string)
    (limit : option Z) (now : datetime)
    (records : list MockApi.LoanApplication) :
  valid_time (hour now) (minute now) (second now) (microsecond now) = true ->
  MockApi.loan_applications fromisoformat uuid4 None limit now = Ok records ->
  (length records <= 59)%nat
  /\ forall i r, records !! i = Some r ->
       to_micros (MockApi.submitted_at r)
       = to_micros (hour_of now) + 60000000 * (Z.of_nat i + 1)
       /\ dt_lt (MockApi.submitted_at r) now.
Proof.
  intros Hv H. unfold MockApi.loan_applications in H. cbv zeta in H.
  destruct (negb ((1 <=? default 50 limit) && (default 50 limit <=? 500)));
    [done|].
  rewrite window_start_default in H by done. cbn in H.
  apply generate_spec in H as (new & -> & _ & Hnew). cbn [app].
  assert (Hall : forall i r, new !! i = Some r ->
            to_micros (MockApi.submitted_at r)
            = to_micros (hour_of now) + 60000000 * (Z.of_nat i + 1)
            /\ dt_lt (MockApi.submitted_at r) now).
  { intros i r Hi. exact (Hnew i r Hi). }
  split; [|exact Hall].
  destruct (decide (length new <= 59)%nat) as [|Hlong]; [done|].
  destruct (lookup_lt_is_Some_2 new 59 ltac:(lia)) as [r Hr].
  destruct (Hall 59%nat r Hr) as [Ht Hn].
  apply valid_time_spec in Hv.
  unfold dt_lt in Hn. rewrite Ht in Hn.
  unfold to_micros, hour_of in Hn. cbn in Hn. lia.
Qed.

Lemma loan_applications_default_window_witness :
  exists records,
    MockApi.loan_applications fromisoformat_utc Scenario.ids None (Some 500)
      Scenario.noon = Ok records
    /\ (length records <= 59)%nat.
Proof.
  eexists. split; [vm_compute; reflexivity|].
  eapply (loan_applications_default_window fromisoformat_utc Scenario.ids
            (Some 500) Scenario.noon).
  - reflexivity.
  - vm_compute. reflexivity.
Defined.

(** X16.  Every record [_fake_record] makes has a loan amount in
    5000..24999 and an income in 40000..129999, so both are above 0, a
    state and a purpose of the two fixed lists, and the timestamp it was
    given. *)
Theorem fake_record_ranges
    (uuid4 : nat -> string) (n : nat) (d : datetime) :
  let r := MockApi._fake_record uuid4 n d in
  5000 <= MockApi.loan_amount r < 25000
  /\ 40000 <= MockApi.annual_income r < 130000
  /\ In (MockApi.state r) MockApi.STATES
  /\ In (MockApi.purpose r) MockApi.PURPOSES
  /\ MockApi.submitted_at r = d.
Proof.
  cbv zeta. unfold MockApi._fake_record. cbn [MockApi.loan_amount
    MockApi.annual_income MockApi.state MockApi.purpose MockApi.submitted_at].
  pose proof (Z.mod_pos_bound (timestamp_int d) 20000 ltac:(lia)).
  pose proof (Z.mod_pos_bound (timestamp_int d) 90000 ltac:(lia)).
  pose proof (Z.mod_pos_bound (timestamp_int d) 10 ltac:(lia)).
  pose proof (Z.mod_pos_bound (timestamp_int d) 5 ltac:(lia)).
  repeat split; try lia.
  - apply nth_In. cbn. lia.
  - apply nth_In. cbn. lia.
Qed.

(** ** Runs one after the other *)

Lemma build_rows_ids (fromisoformat : string -> option datetime)
    (py_float : json -> result Z)
    (records : list RawRecord) (rows : list StagingRow) :
  build_rows fromisoformat py_float records = Ok rows ->
  forall row, In row rows ->
    exists r, In r records
              /\ Raw.application_id r = Some (Db.application_id row).
Proof.
  intros H row Hin.
  destruct (build_rows_in fromisoformat py_float records rows row H Hin)
    as (r & Hr & Hrow).
  exists r. split; [done|]. by apply build_row_ok in Hrow as (Hid & _).
Qed.

(** A stored row that no row of the batch conflicts with is still stored
    after the batch. *)
Lemma executemany_keeps_row (rows t : list StagingRow) (x : StagingRow) :
  In x t -> Forall (fun row => conflicts row x = false) rows ->
  In x (executemany rows t).
Proof.
  revert t. induction rows as [|row rows IH]; intros t Hin Hall; [done|].
  inversion Hall as [|? ? Hc Hall']; subst. cbn. apply IH; [|done].
  unfold upsert_row. destruct (existsb (conflicts row) t).
  - apply in_map_iff. exists x. by rewrite Hc.
  - apply in_or_app. by left.
Qed.

Lemma conflicts_unkeyed_l (row x : StagingRow) :
  Db.application_id row = None -> conflicts row x = false.
Proof.
  intros H. unfold conflicts. rewrite H. by destruct (Db.application_id x).
Qed.

Lemma conflicts_unkeyed_r (row x : StagingRow) :
  Db.application_id x = None -> conflicts row x = false.
Proof. intros H. unfold conflicts. by rewrite H. Qed.

(** A row without a key is stored by every batch that holds it. *)
Lemma executemany_keeps_unkeyed (rows t : list StagingRow) (x : StagingRow) :
  In x rows -> Db.application_id x = None -> In x (executemany rows t).
Proof.
  revert t. induction rows as [|row rows IH]; intros t Hin Hx; [done|].
  cbn. fold (executemany rows (upsert_row t row)).
  destruct Hin as [->|Hin]; [|by apply IH].
  apply executemany_keeps_row.
  - rewrite upsert_row_absent; [apply in_or_app; right; by left|].
    induction t as [|old t IHt]; [done|]. cbn.
    by rewrite conflicts_unkeyed_l.
  - apply List.Forall_forall. intros r _. by apply conflicts_unkeyed_r.
Qed.

(** The rows of a batch after which the gate passed have a key. *)
Lemma gate_passed_keyed (rows t : list StagingRow) (now : datetime) :
  passed (Quality.run_staging_checks (executemany rows t) now) = true ->
  Forall (fun row => is_Some (Db.application_id row)) rows.
Proof.
  intros Hp. apply gate_rows_valid in Hp.
  rewrite List.Forall_forall in Hp. apply List.Forall_forall.
  intros row Hrow.
  destruct (Db.application_id row) as [k|] eqn:Hk; [by eexists|].
  destruct (Hp row (executemany_keeps_unkeyed rows t row Hrow Hk))
    as ((Hid & _) & _).
  congruence.
Qed.

Section Runs.
Variable fromisoformat : string -> option datetime.
Variable py_float : json -> result Z.
Variable env : Env.

Lemma main_gate_and_fetch w :
wp (main fromisoformat py_float env) w (fun _ w' tr =>
  (forall q, In (GateEvaluated q) tr ->
     q = Quality.run_staging_checks (staging w') (env_now env OpChecks))
  /\ (forall since limit records, In (Fetched since limit records) tr ->
        env_api env since limit = Ok records)
  /\ (staging w' = staging w
      \/ exists since records rows,
           In (Fetched since 500 records) tr
           /\ build_rows fromisoformat py_float records = Ok rows
           /\ staging w' = executemany rows (staging w))).
Proof.
wp_run; cbn [id db bronze on_db on_bronze] in *;
  autorewrite with store in *.
all: split; [intros q H; in_trace H; injection H as <-; by store_norm|].
all: split; [intros since limit records H; in_trace H;
             injection H as <- <- <-; assumption|].
all: first [ left; by store_norm
           | right; do 3 eexists; split; [solve [in_list]|];
             split; [eassumption|by store_norm] ].
Qed.

End Runs.

(** X18.  Running the pipeline again on a source that answers with the
    same records is harmless: when both runs return normally, staging after
    the second run is staging after the first. *)
Theorem rerun_with_same_records_keeps_staging
    (fromisoformat : string -> option datetime)
    (py_float : json -> result Z) (env1 env2 : Env)
    (w : World) (records : list RawRecord) :
  (forall since limit, env_api env1 since limit = Ok records) ->
  (forall since limit, env_api env2 since limit = Ok records) ->
  let o1 := main fromisoformat py_float env1 w in
  let o2 := main fromisoformat py_float env2 (final o1) in
  res o1 = Ok tt -> res o2 = Ok tt ->
  staging (final o2) = staging (final o1).
Proof.
  intros Hapi1 Hapi2 o1 o2 Hok1 Hok2.
  destruct (main_success fromisoformat py_float env1 w Hok1)
    as (s1 & recs1 & rows1 & Hin1 & Hrows1 & Hst1 & Hp1 & _).
  destruct (main_success fromisoformat py_float env2 (final o1) Hok2)
    as (s2 & recs2 & rows2 & Hin2 & Hrows2 & Hst2 & _).
  destruct (main_gate_and_fetch fromisoformat py_float env1 w) as (_ & Hf1 & _).
  destruct (main_gate_and_fetch fromisoformat py_float env2 (final o1))
    as (_ & Hf2 & _).
  apply Hf1 in Hin1. apply Hf2 in Hin2.
  rewrite Hapi1 in Hin1. rewrite Hapi2 in Hin2.
  injection Hin1 as <-. injection Hin2 as <-.
  rewrite Hrows1 in Hrows2. injection Hrows2 as <-.
  fold o1 in Hst1, Hp1. fold o2 in Hst2. rewrite Hst2, Hst1.
  apply executemany_idempotent.
  rewrite Hst1 in Hp1. by apply gate_passed_keyed in Hp1.
Qed.

Lemma rerun_with_same_records_keeps_staging_witness :
  staging (final (main fromisoformat_utc float_exact
                    (Scenario.calm "run-2" Scenario.three_loans)
                    (final (main fromisoformat_utc float_exact
                              (Scenario.calm "run-1" Scenario.three_loans)
                              Scenario.fresh))))
  = staging (final (main fromisoformat_utc float_exact
                      (Scenario.calm "run-1" Scenario.three_loans)
                      Scenario.fresh)).
Proof.
  apply (rerun_with_same_records_keeps_staging fromisoformat_utc float_exact
           (Scenario.calm "run-1" Scenario.three_loans)
           (Scenario.calm "run-2" Scenario.three_loans)
           Scenario.fresh Scenario.three_loans).
  - intros since limit. reflexivity.
  - intros since limit. reflexivity.
  - reflexivity.
  - vm_compute. reflexivity.
Defined.

(** X19.  A stored row that fails a check blocks every run that does not
    overwrite it: when none of the fetched records has its key, the row is
    still stored after the run, [main] does not return normally and the
    watermark is what it was, whatever the fetched records are. *)
Theorem stale_invalid_row_blocks_the_run
    (fromisoformat : string -> option datetime)
    (py_float : json -> result Z) (env : Env) (w : World)
    (x : StagingRow) :
  let o := main fromisoformat py_float env w in
  In x (staging w) ->
  ~ row_valid (env_now env OpChecks) x ->
  (forall since limit records r id,
     env_api env since limit = Ok records -> In r records ->
     Raw.application_id r = Some (Some id) ->
     Db.application_id x <> Some id) ->
  In x (staging (final o))
  /\ res o <> Ok tt
  /\ (forall s t, ~ In (WatermarkSet s t) (trace o))
  /\ watermark (final o) = watermark w.
Proof.
  intros o Hx Hbad Hkeys.
  destruct (main_gate_and_fetch fromisoformat py_float
      env w) as (Hgate & Hfetch & Hst).
  assert (Hstored : In x (staging (final o))).
  { destruct Hst as [Hst|(since & records & rows & Hin & Hrows & Hst)];
      fold o in Hst; rewrite Hst; [done|].
    apply executemany_keeps_row; [done|].
    apply List.Forall_forall. intros row Hrow.
    destruct (build_rows_ids fromisoformat py_float records rows Hrows row Hrow)
      as (r & Hr & Hk).
    destruct (conflicts row x) eqn:Ec; [|done]. exfalso.
    unfold conflicts in Ec. apply sql_eqb_true in Ec as (id & Hx' & Hrow').
    rewrite Hrow' in Hk.
    exact (Hkeys _ _ _ r id (Hfetch _ _ _ Hin) Hr Hk Hx'). }
  assert (Hfails : passed (Quality.run_staging_checks (staging (final o))
                             (env_now env OpChecks)) <> true).
  { intros Hp. apply gate_rows_valid in Hp.
    rewrite List.Forall_forall in Hp. exact (Hbad (Hp x Hstored)). }
  assert (Hno : forall s t, ~ In (WatermarkSet s t) (trace o)).
  { intros s t Hin.
    destruct (main_advance_and_archive fromisoformat py_float
        env w) as (Hadv & _).
    destruct (Hadv s t Hin) as (q & Hq & Hp).
    apply Hgate in Hq. fold o in Hq. subst q. exact (Hfails Hp). }
  split; [exact Hstored|]. split; [|split; [exact Hno|]].
  - intros Hok.
    destruct (main_success fromisoformat py_float
        env w Hok) as (? & ? & ? & _ & _ & _ & Hp & _).
    exact (Hfails Hp).
  - destruct (main_watermark_frame fromisoformat py_float env w) as [Hframe _].
    exact (Hframe Hno).
Qed.

Lemma stale_invalid_row_blocks_the_run_witness :
  res (main fromisoformat_utc float_exact
      Scenario.empty_run Scenario.after_bad_run)
  <> Ok tt
  /\ watermark (final (main fromisoformat_utc float_exact Scenario.empty_run
                         Scenario.after_bad_run))
     = watermark Scenario.after_bad_run.
Proof.
  destruct (stale_invalid_row_blocks_the_run fromisoformat_utc float_exact
              Scenario.empty_run Scenario.after_bad_run Scenario2.bad_row)
    as (_ & Hres & _ & Hw).
  - vm_compute. left. reflexivity.
  - intros (_ & Hamount & _). specialize (Hamount 0 eq_refl). lia.
  - intros since limit records r id [= <-] Hr. destruct Hr.
  - split; [exact Hres|exact Hw].
Defined.
